(** * contracts/src.ts/deploy.ts: the deployment script, as a shallow embedding

    The script is sequential glue around three libraries (ethereum-waffle,
    ethers, axios).  The embedding keeps the script's own control flow and
    bookkeeping and takes everything it calls as a [Host]: the process
    environment, the build artifacts, the two ABI encoders, and the outside
    world (chain and block explorer) as a deterministic function of the
    interaction so far. *)

From stdpp Require Import gmap strings list.
From Stdlib Require Import ZArith.

Local Open Scope string_scope.
Local Open Scope list_scope.
Local Open Scope Z_scope.

(** ** JavaScript values that flow through the script *)

Inductive value :=
| VUndefined
| VNull
| VString (s : string)
| VNumber (n : Z)
| VBuffer (b : list Byte.byte).

(** Truthiness, as used by [||]. *)
Definition truthy (v : value) : bool :=
  match v with
  | VUndefined | VNull => false
  | VString s => negb (String.eqb s EmptyString)
  | VNumber n => negb (n =? 0)
  | VBuffer _ => true
  end.

(** [a || b] *)
Definition js_or (a b : value) : value := if truthy a then a else b.

(** Coercion of a value inside a template literal.  The script interpolates
    environment values and addresses only, which are strings or undefined;
    the last two cases are never reached. *)
Definition to_string (v : value) : string :=
  match v with
  | VUndefined => "undefined"
  | VNull => "null"
  | VString s => s
  | VNumber _ => "[object Object]"
  | VBuffer _ => "[object Object]"
  end.

(** [s.includes(pat)] on strings. *)
Fixpoint includes (s pat : string) : bool :=
  String.prefix pat s
  || match s with
     | EmptyString => false
     | String _ s' => includes s' pat
     end.

(** [s.slice(n)] for a non-negative [n] within or beyond the string. *)
Fixpoint slice (n : nat) (s : string) : string :=
  match n, s with
  | O, _ => s
  | S n', String _ s' => slice n' s'
  | S _, EmptyString => EmptyString
  end.

(** ** Artifacts, contracts, requests *)

Record abi_entry := { type : string; inputs : list string }.

(** A compiled contract as [require]d from the build directory. *)
Record artifact := {
  artifact_name : string;
  abi : list abi_entry;
  interface : list abi_entry;
}.

(** An [ethers.Contract] object. *)
Record Contract := {
  address : value;
  contract_interface : list abi_entry;
  deployTransaction_hash : value;
}.

Record Wallet := { wallet_address : string }.

(** The [data] object posted to the block explorer. *)
Record VerifyRequest := {
  apikey : value;
  module : string;
  action : string;
  contractaddress : value;
  sourceCode : string;
  codeformat : string;
  contractname_field : string;
  compilerversion : string;
  constructorArguements : value;
}.

(** [r.data] of a block-explorer reply.  [status] is the field after the
    numeric coercion that [!= 1] applies to it. *)
Record EtherscanData := { status : Z; result : string }.

(** What the script does to the outside, in program order. *)
Inductive event :=
| DeployContract (w : Wallet) (code : artifact) (args : option (list value)) (gasLimit : option Z)
| Invoke (to : value) (method : string) (args : list value)
| Wait (tx : string)
| AxiosPost (url : string) (data : VerifyRequest)
| AxiosGet (url : string)
| Sleep (ms : Z)
| ConsoleLog (text : string) (payload : option EtherscanData)
| ConsoleError (text : string)
| GatherSources (contractPath : string).

Definition exn := string.

(** ** The host *)

Record Host := {
  process_env : gmap string string;
  (* build outputs *)
  upgradeGatekeeperContractCode : artifact;
  franklinContractCode : artifact;
  verifierContractCode : artifact;
  governanceContractCode : artifact;
  proxyContractCode : artifact;
  upgradeGatekeeperTestContractCode : artifact;
  franklinTestContractCode : artifact;
  verifierTestContractCode : artifact;
  governanceTestContractCode : artifact;
  ERC20MintableContract : artifact;
  (* ethereumjs-abi and ethers.utils.defaultAbiCoder *)
  rawEncode : list string -> list value -> exn + list Byte.byte;
  defaultAbiCoder_encode : list string -> option (list value) -> exn + string;
  (* the replies of chain and explorer; the argument is the interaction so
     far, the request just made being its last event *)
  deployed : list event -> exn + (string * string);
  submitted : list event -> exn + string;
  mined : list event -> option exn;
  posted : list event -> exn + EtherscanData;
  got : list event -> exn + EtherscanData;
  gathered : list event -> exn + string;
}.

(** ** The Deployer object and the machine *)

Record Deployer := {
  wallet : Wallet;
  bytecodes : gmap string artifact;
  addresses : gmap string value;
  deployTransactionHash : gmap string value;
}.

Record machine := { this : Deployer; trace : list event }.

Inductive outcome (A : Type) :=
| Returned (a : A)
| Thrown (e : exn)
| OutOfFuel.
Arguments Returned {A} a.
Arguments Thrown {A} e.
Arguments OutOfFuel {A}.

Definition M (A : Type) : Type := machine -> outcome A * machine.

Definition ret {A} (a : A) : M A := fun m => (Returned a, m).
Definition throw {A} (e : exn) : M A := fun m => (Thrown e, m).
Definition diverge {A} : M A := fun m => (OutOfFuel, m).

Definition bind {A B} (c : M A) (k : A -> M B) : M B := fun m =>
  match c m with
  | (Returned a, m') => k a m'
  | (Thrown e, m') => (Thrown e, m')
  | (OutOfFuel, m') => (OutOfFuel, m')
  end.

(** [try { body } catch (err) { handler }] *)
Definition try_catch {A} (body : M A) (handler : exn -> M A) : M A := fun m =>
  match body m with
  | (Thrown e, m') => handler e m'
  | r => r
  end.

Definition lift {A} (r : exn + A) : M A :=
  match r with inl e => throw e | inr a => ret a end.

Definition get_this : M Deployer := fun m => (Returned (this m), m).
Definition set_this (d : Deployer) : M unit := fun m =>
  (Returned tt, {| this := d; trace := trace m |}).

Definition emit (e : event) : M unit := fun m =>
  (Returned tt, {| this := this m; trace := trace m ++ [e] |}).

(** Make a request and take the host's reply to it. *)
Definition request {A} (e : event) (reply : list event -> exn + A) : M A := fun m =>
  let tr := trace m ++ [e] in
  (match reply tr with inl x => Thrown x | inr a => Returned a end,
   {| this := this m; trace := tr |}).

Declare Scope js_scope.
Delimit Scope js_scope with js.
Notation "'let!' x ':=' c 'in' k" := (bind c (fun x => k))
  (at level 10, x pattern, c at level 100, k at level 200) : js_scope.
Notation "c ';;;' k" := (bind c (fun _ => k))
  (at level 100, k at level 200, right associativity) : js_scope.

(** The same for pure code that may throw. *)
Definition and_then {A B} (r : exn + A) (k : A -> exn + B) : exn + B :=
  match r with inl e => inl e | inr a => k a end.
Notation "'try!' x ':=' c 'in' k" := (and_then c (fun x => k))
  (at level 10, x pattern, c at level 100, k at level 200) : js_scope.

Local Open Scope js_scope.

Definition HashZero : string :=
  "0x0000000000000000000000000000000000000000000000000000000000000000".

Section Script.
Context (H : Host).

Definition getenv (name : string) : value :=
  match process_env H !! name with
  | Some s => VString s
  | None => VUndefined
  end.

(** [this.addresses[name]] *)
Definition addr (d : Deployer) (name : string) : value :=
  default VUndefined (addresses d !! name).

(** [new Deployer(wallet, isTest)] *)
Definition new_Deployer (w : Wallet) (isTest : bool) : Deployer :=
  {| wallet := w;
     bytecodes :=
       {[ "GovernanceTarget" := if isTest then governanceTestContractCode H else governanceContractCode H;
          "VerifierTarget" := if isTest then verifierTestContractCode H else verifierContractCode H;
          "FranklinTarget" := if isTest then franklinTestContractCode H else franklinContractCode H;
          "Governance" := proxyContractCode H;
          "Verifier" := proxyContractCode H;
          "Franklin" := proxyContractCode H;
          "UpgradeGatekeeper" := if isTest then upgradeGatekeeperTestContractCode H else upgradeGatekeeperContractCode H ]};
     addresses :=
       {[ "GovernanceTarget" := getenv "GOVERNANCE_TARGET_ADDR";
          "VerifierTarget" := getenv "VERIFIER_TARGET_ADDR";
          "FranklinTarget" := getenv "CONTRACT_TARGET_ADDR";
          "Governance" := getenv "GOVERNANCE_ADDR";
          "Verifier" := getenv "VERIFIER_ADDR";
          "Franklin" := getenv "CONTRACT_ADDR";
          "UpgradeGatekeeper" := getenv "UPGRADE_GATEKEEPER_ADDR" ]};
     deployTransactionHash :=
       {[ "Governance" := getenv "GOVERNANCE_GENESIS_TX_HASH";
          "Franklin" := getenv "CONTRACT_GENESIS_TX_HASH" ]} |}.

Definition getDeployTransactionHash (d : Deployer) (name : string) : value :=
  default VUndefined (deployTransactionHash d !! name).

(** [new ethers.Contract(this.addresses[name], this.bytecodes[name].interface, this.wallet)];
    reading [.interface] of a missing entry is a TypeError.  What the
    constructor itself makes of the address is the library's and is not
    modelled: the model gives the contract object wherever the arguments
    can be evaluated. *)
Definition getDeployedContract (d : Deployer) (name : string) : exn + Contract :=
  match bytecodes d !! name with
  | None => inl "TypeError"
  | Some code =>
      inr {| address := addr d name; contract_interface := interface code;
             deployTransaction_hash := VUndefined |}
  end.

Definition getDeployedProxyContract (d : Deployer) (name : string) : exn + Contract :=
  match bytecodes d !! (name +:+ "Target") with
  | None => inl "TypeError"
  | Some code =>
      inr {| address := addr d name; contract_interface := interface code;
             deployTransaction_hash := VUndefined |}
  end.

Definition initializationArgs (d : Deployer) (contractName : string)
  : option (list string * list value) :=
  ({[ "Governance" := (["address"], [VString (wallet_address (wallet d))]);
      "Verifier" := ([], []);
      "Franklin" := (["address"; "address"; "address"; "bytes32"],
                     [addr d "Governance";
                      addr d "Verifier";
                      getenv "OPERATOR_FRANKLIN_ADDRESS";
                      js_or (getenv "GENESIS_ROOT") (VString HashZero)]) ]}
    : gmap string (list string * list value)) !! contractName.

(** Destructuring an [undefined] table entry is a TypeError. *)
Definition encodedInitializationArgs (d : Deployer) (contractName : string)
  : exn + list Byte.byte :=
  match initializationArgs d contractName with
  | None => inl "TypeError"
  | Some (initArgs, initArgsValues) => rawEncode H initArgs initArgsValues
  end.

(** The object literal of [constructorArgs], given the three encodings. *)
Definition constructorArgs_table (d : Deployer) (g v f : list Byte.byte)
  : gmap string (list value) :=
  {[ "GovernanceTarget" := [];
     "VerifierTarget" := [];
     "FranklinTarget" := [];
     "Governance" := [addr d "GovernanceTarget"; VBuffer g];
     "Verifier" := [addr d "VerifierTarget"; VBuffer v];
     "Franklin" := [addr d "FranklinTarget"; VBuffer f];
     "UpgradeGatekeeper" := [addr d "Franklin"] ]}.

(** The object literal is built in full on every call, so all three
    encodings are computed, in key order, before the lookup. *)
Definition constructorArgs (d : Deployer) (contractName : string)
  : exn + option (list value) :=
  try! g := encodedInitializationArgs d "Governance" in
  try! v := encodedInitializationArgs d "Verifier" in
  try! f := encodedInitializationArgs d "Franklin" in
  inr (constructorArgs_table d g v f !! contractName).

Definition is_constructor (i : abi_entry) : bool := String.eqb (type i) "constructor".

Definition encodedConstructorArgs (d : Deployer) (contractName : string) : exn + value :=
  try! args := constructorArgs d contractName in
  match bytecodes d !! contractName with
  | None => inl "TypeError"
  | Some code =>
      let iface := List.filter is_constructor (abi code) in
      match iface with
      | [] => inr VNull
      | i0 :: _ =>
          try! enc := defaultAbiCoder_encode H (inputs i0) args in
          inr (VString (slice 2 enc))
      end
  end.

(** *** Calls into the libraries *)

(** [await deployContract(wallet, code, args, overrides)] of
    ethereum-waffle: sends the deployment and resolves once it is mined.
    An [undefined] artifact is a TypeError inside the library. *)
Definition deployContract (w : Wallet) (code : option artifact)
    (args : option (list value)) (gasLimit : option Z) : M Contract :=
  match code with
  | None => throw "TypeError"
  | Some c =>
      let! (a, h) := request (DeployContract w c args gasLimit) (deployed H) in
      ret {| address := VString a; contract_interface := interface c;
             deployTransaction_hash := VString h |}
  end.

(** [await contract.method(...args)]: submits a transaction, resolves to
    the transaction response. *)
Definition invoke (c : Contract) (method : string) (args : list value) : M string :=
  request (Invoke (address c) method args) (submitted H).

(** [await tx.wait()]: resolves once the transaction has a receipt. *)
Definition wait (tx : string) : M unit :=
  request (Wait tx)
    (fun tr => match mined H tr with Some e => inl e | None => inr tt end).

Definition sleep (ms : Z) : M unit := emit (Sleep ms).
Definition console_log (text : string) (payload : option EtherscanData) : M unit :=
  emit (ConsoleLog text payload).
Definition console_error (text : string) : M unit := emit (ConsoleError text).

Definition Axios_post (url : string) (data : VerifyRequest) : M EtherscanData :=
  request (AxiosPost url data) (posted H).
Definition Axios_get (url : string) : M EtherscanData :=
  request (AxiosGet url) (got H).

(** [getSolidityInput(contractPath)]: gathers the sources from disk and
    prints the standard-JSON compiler input; all of it is the host's. *)
Definition getSolidityInput (contractPath : string) : M string :=
  request (GatherSources contractPath) (gathered H).

(** [this.addresses[name] = v] and [this.deployTransactionHash[name] = v] *)
Definition set_address (name : string) (v : value) : M unit :=
  let! d := get_this in
  set_this {| wallet := wallet d; bytecodes := bytecodes d;
              addresses := <[name := v]> (addresses d);
              deployTransactionHash := deployTransactionHash d |}.
Definition set_deployTransactionHash (name : string) (v : value) : M unit :=
  let! d := get_this in
  set_this {| wallet := wallet d; bytecodes := bytecodes d;
              addresses := addresses d;
              deployTransactionHash := <[name := v]> (deployTransactionHash d) |}.

(** [new ethers.Contract(proxy.address, this.bytecodes[target].interface, this.wallet)] *)
Definition proxy_as (target : string) (proxy : Contract) : M Contract :=
  let! d := get_this in
  match bytecodes d !! target with
  | None => throw "TypeError"
  | Some code =>
      ret {| address := address proxy; contract_interface := interface code;
             deployTransaction_hash := VUndefined |}
  end.

(** *** The deploy methods *)

Definition deployGovernance : M Contract :=
  let! d := get_this in
  let! args := lift (constructorArgs d "GovernanceTarget") in
  let! target := deployContract (wallet d) (bytecodes d !! "GovernanceTarget") args (Some 3000000) in
  set_address "GovernanceTarget" (address target);;;
  let! d := get_this in
  let! args := lift (constructorArgs d "Governance") in
  let! proxy := deployContract (wallet d) (bytecodes d !! "Governance") args (Some 3000000) in
  set_address "Governance" (address proxy);;;
  set_deployTransactionHash "Governance" (deployTransaction_hash proxy);;;
  proxy_as "GovernanceTarget" proxy.

Definition deployVerifier : M Contract :=
  let! d := get_this in
  let! args := lift (constructorArgs d "VerifierTarget") in
  let! target := deployContract (wallet d) (bytecodes d !! "VerifierTarget") args (Some 3000000) in
  set_address "VerifierTarget" (address target);;;
  let! d := get_this in
  let! args := lift (constructorArgs d "Verifier") in
  let! proxy := deployContract (wallet d) (bytecodes d !! "Verifier") args (Some 3000000) in
  set_address "Verifier" (address proxy);;;
  proxy_as "VerifierTarget" proxy.

Definition deployFranklin : M Contract :=
  let! d := get_this in
  let! args := lift (constructorArgs d "FranklinTarget") in
  let! target := deployContract (wallet d) (bytecodes d !! "FranklinTarget") args (Some 6500000) in
  set_address "FranklinTarget" (address target);;;
  let! d := get_this in
  let! args := lift (constructorArgs d "Franklin") in
  let! proxy := deployContract (wallet d) (bytecodes d !! "Franklin") args (Some 3000000) in
  set_address "Franklin" (address proxy);;;
  set_deployTransactionHash "Franklin" (deployTransaction_hash proxy);;;
  proxy_as "FranklinTarget" proxy.

(** [await (await this.getDeployedContract(name).transferMastership(to)).wait()] *)
Definition transferMastership_of (name : string) (to : value) : M unit :=
  let! d := get_this in
  let! c := lift (getDeployedContract d name) in
  let! tx := invoke c "transferMastership" [to] in
  wait tx.

(** [await (await contract.addUpgradeable(this.getDeployedContract(name).address)).wait()] *)
Definition addUpgradeable_of (contract : Contract) (name : string) : M unit :=
  let! d := get_this in
  let! c := lift (getDeployedContract d name) in
  let! tx := invoke contract "addUpgradeable" [address c] in
  wait tx.

Definition deployUpgradeGatekeeper : M Contract :=
  let! d := get_this in
  let! args := lift (constructorArgs d "UpgradeGatekeeper") in
  let! contract := deployContract (wallet d) (bytecodes d !! "UpgradeGatekeeper") args (Some 3000000) in
  set_address "UpgradeGatekeeper" (address contract);;;
  transferMastership_of "Governance" (address contract);;;
  transferMastership_of "Verifier" (address contract);;;
  transferMastership_of "Franklin" (address contract);;;
  addUpgradeable_of contract "Governance";;;
  addUpgradeable_of contract "Verifier";;;
  addUpgradeable_of contract "Franklin";;;
  ret contract.

(** *** Source publication *)

Definition checkverifystatus (guid : string) : string :=
  "http://api.etherscan.io/api?module=contract&&action=checkverifystatus&&guid=" +:+ guid.

(** The [while (retriesLeft --> 0)] loop of the success branch; the
    argument is [retriesLeft] on entry to the test, [status] the variable
    of that name (its last assigned value, if any). *)
Fixpoint poll (guid : string) (retriesLeft : nat) (status : option EtherscanData)
  : M (option EtherscanData) :=
  match retriesLeft with
  | O => ret status
  | S retriesLeft' =>
      let! st := Axios_get (checkverifystatus guid) in
      if negb (includes (result st) "Pending in queue")
      then ret (Some st)
      else sleep 5000;;; poll guid retriesLeft' (Some st)
  end.

Definition contractPath_of (contractname : string) : string :=
  "contracts/" +:+ contractname +:+ ".sol".

Definition etherscanApiUrl : string :=
  match getenv "ETH_NETWORK" with
  | VString "mainnet" => "https://api.etherscan.io/api"
  | network => "https://api-" +:+ to_string network +:+ ".etherscan.io/api"
  end.

(** The [data] object of the submission. *)
Definition verifysourcecode (d : Deployer) (contractname sourceCode : string)
    (constructorArguments : value) : VerifyRequest :=
  {| apikey := getenv "ETHERSCAN_API_KEY";
     module := "contract";
     action := "verifysourcecode";
     contractaddress := addr d contractname;
     sourceCode := sourceCode;
     codeformat := "solidity-standard-json-input";
     contractname_field := contractPath_of contractname +:+ ":" +:+ contractname;
     compilerversion := "v0.5.16+commit.9c3226ce";
     constructorArguements := constructorArguments |}.

Definition published_message (d : Deployer) (contractname : string) : string :=
  "Published " +:+ contractname +:+ " sources on https://"
  +:+ to_string (getenv "ETH_NETWORK") +:+ ".etherscan.io/address/"
  +:+ to_string (addr d contractname) +:+ " with status".

(** One unit of [fuel] per activation of the method. *)
Fixpoint publishSourceCodeToEtherscan (fuel : nat) (contractname : string) : M unit :=
  match fuel with
  | O => diverge
  | S fuel' =>
      let! sourceCode := getSolidityInput (contractPath_of contractname) in
      let! d := get_this in
      let! constructorArguments := lift (encodedConstructorArgs d contractname) in
      let data := verifysourcecode d contractname sourceCode constructorArguments in
      let! r := Axios_post etherscanApiUrl data in
      let retriesLeft := 20 in
      if negb (status r =? 1) then
        if includes (result r) "Unable to locate ContractCode" then
          sleep 15000;;;
          if 0 <? retriesLeft then
            let retriesLeft := retriesLeft - 1 in
            publishSourceCodeToEtherscan fuel' contractname
          else ret tt
        else
          console_log ("Problem publishing " +:+ contractname +:+ ":") (Some r)
      else
        let! status := poll (result r) 10 None in
        console_log (published_message d contractname) status
  end.

(** *** Test tokens *)

(** [parseEther] and [bigNumberify] of a decimal literal, by its value. *)
Definition parseEther (ether : Z) : value := VNumber (ether * 10 ^ 18).
Definition bigNumberify (n : Z) : value := VNumber n.

Definition addTestERC20Token_try (w : Wallet) (governance : Contract) : M (option Contract) :=
  let! erc20 := deployContract w (Some (ERC20MintableContract H)) (Some []) (Some 3000000) in
  let! _ := invoke erc20 "mint" [VString (wallet_address w); parseEther 3000000000] in
  let! tx := invoke governance "addToken" [address erc20] in
  wait tx;;;
  ret (Some erc20).

(** A function that falls off its end returns [undefined]: [None]. *)
Definition addTestERC20Token (w : Wallet) (governance : Contract) : M (option Contract) :=
  try_catch (addTestERC20Token_try w governance)
    (fun err => console_error ("Add token error:" +:+ err);;; ret None).

Definition mintTestERC20Token_try (w : Wallet) (erc20 : Contract) : M unit :=
  let! txCall := invoke erc20 "mint" [VString (wallet_address w); parseEther 3000000000] in
  wait txCall.

Definition mintTestERC20Token (w : Wallet) (erc20 : Contract) : M unit :=
  try_catch (mintTestERC20Token_try w erc20)
    (fun err => console_error ("Mint token error:" +:+ err)).

Definition addTestNotApprovedERC20Token_try (w : Wallet) : M (option Contract) :=
  let! erc20 := deployContract w (Some (ERC20MintableContract H)) (Some []) None in
  let! _ := invoke erc20 "mint" [VString (wallet_address w); bigNumberify 1000000000] in
  ret (Some erc20).

Definition addTestNotApprovedERC20Token (w : Wallet) : M (option Contract) :=
  try_catch (addTestNotApprovedERC20Token_try w)
    (fun err => console_error ("Add token error:" +:+ err);;; ret None).

End Script.

(** ** Test artifacts and hosts *)

Definition stub (name : string) (entries : list abi_entry) : artifact :=
  {| artifact_name := name; abi := entries; interface := entries |}.

Definition no_constructor : list abi_entry :=
  [ {| type := "function"; inputs := ["address"] |} ].
Definition proxy_abi : list abi_entry :=
  [ {| type := "function"; inputs := [] |};
    {| type := "constructor"; inputs := ["address"; "bytes"] |} ].
Definition gatekeeper_abi : list abi_entry :=
  [ {| type := "constructor"; inputs := ["address"] |};
    {| type := "function"; inputs := ["address"] |} ].

(** The number of requests of a kind made so far. *)
Definition is_post (e : event) : bool := match e with AxiosPost _ _ => true | _ => false end.
Definition is_get (e : event) : bool := match e with AxiosGet _ => true | _ => false end.
Definition is_deploy (e : event) : bool := match e with DeployContract _ _ _ _ => true | _ => false end.
Definition is_invoke (e : event) : bool := match e with Invoke _ _ _ => true | _ => false end.
Definition is_sleep (ms : Z) (e : event) : bool := match e with Sleep n => n =? ms | _ => false end.
Definition count (p : event -> bool) (tr : list event) : nat := length (List.filter p tr).

Definition dev_env : gmap string string :=
  {[ "GOVERNANCE_TARGET_ADDR" := "0xa1"; "VERIFIER_TARGET_ADDR" := "0xa2";
     "CONTRACT_TARGET_ADDR" := "0xa3"; "GOVERNANCE_ADDR" := "0xa4";
     "VERIFIER_ADDR" := "0xa5"; "CONTRACT_ADDR" := "0xa6";
     "UPGRADE_GATEKEEPER_ADDR" := "0xa7"; "OPERATOR_FRANKLIN_ADDRESS" := "0xa8";
     "ETH_NETWORK" := "rinkeby"; "ETHERSCAN_API_KEY" := "KEY" ]}.

(** An encoder in the manner of ethereumjs-abi: it refuses a value that is
    not there. *)
Definition encode_defined (types : list string) (values : list value)
  : exn + list Byte.byte :=
  if forallb (fun v => match v with VUndefined | VNull => false | _ => true end) values
  then inr (List.map (fun _ => Byte.x00) values)
  else inl "Error: Argument is not a number".

(** A test host.  The chain numbers what it is given: the [k]-th deployment
    lands at address [0xc<k>] with transaction [0xd<k>], the [k]-th call is
    transaction [0xe<k>]; [fault] makes a chain request fail; the explorer
    replies through [post_reply] and [get_reply]. *)
Definition nth_name (prefix : string) (n : nat) : string :=
  prefix +:+ String (Ascii.ascii_of_nat (48 + n)) EmptyString.

Definition test_host (env : gmap string string) (fault : list event -> option exn)
    (post_reply get_reply : list event -> exn + EtherscanData) : Host :=
  {| process_env := env;
     upgradeGatekeeperContractCode := stub "UpgradeGatekeeper" gatekeeper_abi;
     franklinContractCode := stub "Franklin" no_constructor;
     verifierContractCode := stub "Verifier" no_constructor;
     governanceContractCode := stub "Governance" no_constructor;
     proxyContractCode := stub "Proxy" proxy_abi;
     upgradeGatekeeperTestContractCode := stub "UpgradeGatekeeperTest" gatekeeper_abi;
     franklinTestContractCode := stub "FranklinTest" no_constructor;
     verifierTestContractCode := stub "VerifierTest" no_constructor;
     governanceTestContractCode := stub "GovernanceTest" no_constructor;
     ERC20MintableContract := stub "ERC20Mintable" no_constructor;
     rawEncode := encode_defined;
     defaultAbiCoder_encode := fun _ _ => inr "0xabcdef";
     deployed := fun tr =>
       match fault tr with
       | Some e => inl e
       | None => inr (nth_name "0xc" (count is_deploy tr), nth_name "0xd" (count is_deploy tr))
       end;
     submitted := fun tr =>
       match fault tr with
       | Some e => inl e
       | None => inr (nth_name "0xe" (count is_invoke tr))
       end;
     mined := fault;
     posted := post_reply;
     got := get_reply;
     gathered := fun _ => inr "{}" |}.

(** Every deployment and transaction goes through. *)
Definition calm_host (env : gmap string string)
    (post_reply get_reply : list event -> exn + EtherscanData) : Host :=
  test_host env (fun _ => None) post_reply get_reply.

(** ** Vocabulary of the statements *)

(** The state after [this.addresses[name] = v]. *)
Definition with_address (d : Deployer) (name : string) (v : value) : Deployer :=
  {| wallet := wallet d; bytecodes := bytecodes d;
     addresses := <[name := v]> (addresses d);
     deployTransactionHash := deployTransactionHash d |}.

(** [k] rounds of a status request followed by the 5-second delay. *)
Fixpoint polls (url : string) (k : nat) : list event :=
  match k with
  | O => []
  | S k' => AxiosGet url :: Sleep 5000 :: polls url k'
  end.

(** The reply says the verification is still queued. *)
Definition pending (reply : exn + EtherscanData) : bool :=
  match reply with
  | inr st => includes (result st) "Pending in queue"
  | inl _ => false
  end.

(** A computation that never runs out of fuel. *)
Definition settles {A} (c : M A) : Prop := forall m, (c m).1 <> OutOfFuel.

(** The machine after [console.error(text)]. *)
Definition logged_error (m : machine) (text : string) : machine :=
  {| this := this m; trace := trace m ++ [ConsoleError text] |}.

(** Every contract call in the trace is directly followed by the wait for
    its receipt. *)
Fixpoint receipts_awaited (tr : list event) : bool :=
  match tr with
  | [] => true
  | Invoke _ _ _ :: rest =>
      match rest with
      | Wait _ :: _ => receipts_awaited rest
      | _ => false
      end
  | _ :: rest => receipts_awaited rest
  end.

Section Vocabulary.
Context (H : Host).

(** What a deploy method for the proxy [name] does in a run from [m] to
    [m'] that returns [c]: one deployment of the target artifact with no
    constructor arguments, then one of the proxy artifact whose arguments
    are the address the first deployment returned and the initialization
    arguments encoded once that address is recorded; both addresses are in
    [addresses] at the end. *)
Definition deploys_target_then_proxy (name : string) (gasTarget : Z)
    (m m' : machine) (c : Contract) : Prop :=
  let d := this m in
  exists targetCode proxyCode targetAddr targetTx proxyAddr proxyTx initArgs,
    let deployTarget := DeployContract (wallet d) targetCode (Some []) (Some gasTarget) in
    let deployProxy :=
      DeployContract (wallet d) proxyCode
        (Some [VString targetAddr; VBuffer initArgs]) (Some 3000000) in
    bytecodes d !! (name +:+ "Target") = Some targetCode /\
    bytecodes d !! name = Some proxyCode /\
    deployed H (trace m ++ [deployTarget]) = inr (targetAddr, targetTx) /\
    encodedInitializationArgs H
      (with_address d (name +:+ "Target") (VString targetAddr)) name = inr initArgs /\
    deployed H (trace m ++ [deployTarget; deployProxy]) = inr (proxyAddr, proxyTx) /\
    trace m' = trace m ++ [deployTarget; deployProxy] /\
    addresses (this m') !! (name +:+ "Target") = Some (VString targetAddr) /\
    addresses (this m') !! name = Some (VString proxyAddr) /\
    address c = VString proxyAddr.

(** The interaction up to and including the submission. *)
Definition submitted_trace (m : machine) (contractname sourceCode : string)
    (constructorArguments : value) : list event :=
  trace m ++
  [ GatherSources (contractPath_of contractname);
    AxiosPost (etherscanApiUrl H)
      (verifysourcecode H (this m) contractname sourceCode constructorArguments) ].

End Vocabulary.

(** ** Hosts and machines of the examples *)

Definition unlocated : EtherscanData :=
  {| status := 0; result := "Unable to locate ContractCode" |}.
Definition rejected : EtherscanData :=
  {| status := 0; result := "Invalid API Key" |}.
Definition accepted : EtherscanData :=
  {| status := 1; result := "ezq878u486pzijkvvmerl6a9mzwhv6sefgvqi5tkwceejc7tvn" |}.
Definition queued : EtherscanData :=
  {| status := 0; result := "Pending in queue" |}.
Definition verified : EtherscanData :=
  {| status := 1; result := "Pass - Verified" |}.

Definition dev_wallet : Wallet :=
  {| wallet_address := "0x52312AD6f01657413b2eaE9287f6B9ADaD93D5FE" |}.

(** An explorer that has not indexed the contract, and never will. *)
Definition explorer_never_indexes : Host :=
  calm_host dev_env (fun _ => inr unlocated) (fun _ => inr verified).

(** An explorer that cannot locate the code for the first [k] submissions
    and refuses the API key from then on. *)
Definition explorer_indexes_after (k : nat) : Host :=
  calm_host dev_env
    (fun tr => inr (if (count is_post tr <=? k)%nat then unlocated else rejected))
    (fun _ => inr verified).

(** An explorer that accepts the submission and keeps the verification
    queued for the first [k] status requests. *)
Definition explorer_queues (k : nat) : Host :=
  calm_host dev_env (fun _ => inr accepted)
    (fun tr => inr (if (count is_get tr <=? k)%nat then queued else verified)).

(** A chain that takes deployments but refuses every call. *)
Definition chain_refuses_calls : Host :=
  test_host dev_env
    (fun tr => if (1 <=? count is_invoke tr)%nat then Some "Error: nonce too low" else None)
    (fun _ => inr rejected) (fun _ => inr verified).

Definition machine_of (H : Host) : machine :=
  {| this := new_Deployer H dev_wallet false; trace := [] |}.

Definition dev_governance : Contract :=
  {| address := VString "0xa4"; contract_interface := no_constructor;
     deployTransaction_hash := VUndefined |}.

Definition dev_machine : machine :=
  {| this := new_Deployer explorer_never_indexes dev_wallet false; trace := [] |}.

(** ** The rest of the script *)

(** [url.replace(pat, '')] with a string pattern: the first occurrence of
    [pat] is removed. *)
Fixpoint remove_first (pat s : string) : string :=
  if String.prefix pat s then slice (String.length pat) s
  else match s with
       | EmptyString => EmptyString
       | String c s' => String c (remove_first pat s')
       end.

(** A file as [gatherSources] returns it. *)
Record SourceFile := { file_url : string; file_source : string }.

(** [obj => ({...obj, url: obj.url.replace(`${process.cwd()}/`, '')})] *)
Definition relative_to (cwd : string) (obj : SourceFile) : SourceFile :=
  {| file_url := remove_first (cwd +:+ "/") (file_url obj);
     file_source := file_source obj |}.

(** [for (let file of input) sources[file.url] = { content: file.source }],
    as the own keys of [sources].  On an object literal the assignment to
    [__proto__] goes to the prototype setter: the object gets a new
    prototype and no key, and [JSON.stringify] prints own keys only. *)
Definition collect_sources (input : list SourceFile) : gmap string string :=
  fold_left
    (fun sources file =>
       if String.eqb (file_url file) "__proto__" then sources
       else <[file_url file := file_source file]> sources)
    input ∅.

(** The [sources] object of [getSolidityInput], from what was gathered. *)
Definition solidity_sources (cwd : string) (gathered_files : list SourceFile)
  : gmap string string :=
  collect_sources (List.map (relative_to cwd) gathered_files).

(** ** Relations between the machine before and after a run *)

(** The Deployer is untouched and the trace has only grown. *)
Definition same_deployer (m m' : machine) : Prop :=
  this m' = this m /\ exists new, trace m' = trace m ++ new.

(** Wallet and artifacts are untouched, every address entry outside
    [names] is untouched, and the trace has only grown. *)
Definition touches_only (names : list string) (m m' : machine) : Prop :=
  wallet (this m') = wallet (this m) /\
  bytecodes (this m') = bytecodes (this m) /\
  (forall n, n ∉ names -> addresses (this m') !! n = addresses (this m) !! n) /\
  exists new, trace m' = trace m ++ new.

(** A computation whose every run relates the machines by [R]. *)
Definition preserves {A} (R : machine -> machine -> Prop) (c : M A) : Prop :=
  forall m, R m (c m).2.

Definition is_gather (e : event) : bool :=
  match e with GatherSources _ => true | _ => false end.

(** A host whose environment names no contract yet. *)
Definition bare_env : gmap string string :=
  {[ "OPERATOR_FRANKLIN_ADDRESS" := "0xa8"; "ETH_NETWORK" := "mainnet";
     "ETHERSCAN_API_KEY" := "KEY" ]}.
Definition bare_host : Host :=
  calm_host bare_env (fun _ => inr rejected) (fun _ => inr verified).

(** The four requests of [addTestERC20Token], for a token at [token] and a
    registration transaction [tx]. *)
Definition addToken_requests (H : Host) (w : Wallet) (governance : Contract)
    (token tx : string) : list event :=
  [ DeployContract w (ERC20MintableContract H) (Some []) (Some 3000000);
    Invoke (VString token) "mint" [VString (wallet_address w); VNumber (3000000000 * 10 ^ 18)];
    Invoke (address governance) "addToken" [VString token];
    Wait tx ].

(** The machine in which [addTestERC20Token] has made the first [k] of its
    four requests. *)
Definition after_requests (H : Host) (w : Wallet) (governance : Contract)
    (token tx : string) (k : nat) (m : machine) : machine :=
  {| this := this m;
     trace := trace m ++ take k (addToken_requests H w governance token tx) |}.

(** A chain on which the second deployment fails. *)
Definition chain_fails_second_deployment : Host :=
  test_host dev_env
    (fun tr => if (2 <=? count is_deploy tr)%nat then Some "Error: out of gas" else None)
    (fun _ => inr rejected) (fun _ => inr verified).

(** ** Environment and pure helpers *)

Section Pure.
Context (H : Host).

(** C9: the Franklin initialization arguments are, in order, the Governance
    address, the Verifier address, OPERATOR_FRANKLIN_ADDRESS, and the genesis
    root, which is GENESIS_ROOT when that variable is set and not the empty
    string and the zero hash (0x followed by 64 zeros) otherwise. *)
Theorem franklin_initializationArgs (d : Deployer) :
  initializationArgs H d "Franklin" =
    Some (["address"; "address"; "address"; "bytes32"],
          [ default VUndefined (addresses d !! "Governance");
            default VUndefined (addresses d !! "Verifier");
            match process_env H !! "OPERATOR_FRANKLIN_ADDRESS" with
            | Some a => VString a
            | None => VUndefined
            end;
            match process_env H !! "GENESIS_ROOT" with
            | Some EmptyString | None =>
                VString ("0x" +:+ String.concat EmptyString (replicate 64 "0"))
            | Some root => VString root
            end ]).
Proof.
  unfold initializationArgs, js_or, getenv, addr.
  destruct (process_env H !! "GENESIS_ROOT") as [[|c root]|]; reflexivity.
Qed.

Lemma filter_head_find {A} (p : A -> bool) (l : list A) :
  head (List.filter p l) = List.find p l.
Proof.
  induction l as [|x l IH]; [reflexivity|].
  cbn [List.filter List.find]. destruct (p x); [reflexivity|exact IH].
Qed.

(** C10, as amended: for a contract name that has an artifact, and when the
    evaluation of [constructorArgs] at line 143 (which runs before the ABI
    is looked at and encodes the initialization arguments of all three
    proxies) does not throw, [encodedConstructorArgs] returns null when the
    artifact's ABI has no entry of type constructor; otherwise it encodes
    the arguments against the inputs of the first such entry and returns the
    encoding without its first two characters, the 0x; an exception of that
    encoder propagates. *)
Theorem encodedConstructorArgs_spec (d : Deployer) (contractName : string)
    (code : artifact) (args : option (list value)) :
  bytecodes d !! contractName = Some code ->
  constructorArgs H d contractName = inr args ->
  (Forall (fun i => type i <> "constructor") (abi code) ->
     encodedConstructorArgs H d contractName = inr VNull) /\
  (forall i hex,
     List.find (fun i => String.eqb (type i) "constructor") (abi code) = Some i ->
     defaultAbiCoder_encode H (inputs i) args = inr ("0x" +:+ hex) ->
     encodedConstructorArgs H d contractName = inr (VString hex)) /\
  (forall i e,
     List.find (fun i => String.eqb (type i) "constructor") (abi code) = Some i ->
     defaultAbiCoder_encode H (inputs i) args = inl e ->
     encodedConstructorArgs H d contractName = inl e).
Proof.
  intros Hcode Hargs. unfold encodedConstructorArgs.
  rewrite Hargs, Hcode. cbn [and_then].
  pose proof (filter_head_find is_constructor (abi code)) as Hhead.
  split; [|split].
  - intros Hnone.
    assert (List.filter is_constructor (abi code) = []) as ->; [|reflexivity].
    clear Hhead. induction Hnone as [|i l Hi _ IH]; [reflexivity|].
    cbn [List.filter]. unfold is_constructor at 1.
    destruct (String.eqb_spec (type i) "constructor"); [contradiction|exact IH].
  - intros i hex Hfind Henc. unfold is_constructor in Hhead at 2.
    rewrite Hfind in Hhead.
    destruct (List.filter is_constructor (abi code)) as [|i0 rest]; [discriminate|].
    injection Hhead as ->. rewrite Henc. reflexivity.
  - intros i e Hfind Henc. unfold is_constructor in Hhead at 2.
    rewrite Hfind in Hhead.
    destruct (List.filter is_constructor (abi code)) as [|i0 rest]; [discriminate|].
    injection Hhead as ->. rewrite Henc. reflexivity.
Qed.

End Pure.

(** ** Stepping through a run *)

Lemma bind_Returned {A B} (c : M A) (k : A -> M B) m b m'' :
  bind c k m = (Returned b, m'') ->
  exists a m', c m = (Returned a, m') /\ k a m' = (Returned b, m'').
Proof.
  unfold bind. destruct (c m) as [[a|e|] m']; intros Hk; try discriminate.
  exists a, m'. split; [reflexivity|exact Hk].
Qed.

Lemma bind_step {A B} (c : M A) (k : A -> M B) m a m' :
  c m = (Returned a, m') -> bind c k m = k a m'.
Proof. unfold bind. intros ->. reflexivity. Qed.

Lemma lift_Returned {A} (r : exn + A) m a m' :
  lift r m = (Returned a, m') -> r = inr a /\ m' = m.
Proof.
  destruct r as [e|a0]; cbn; intros Hr; inversion Hr; subst; split; reflexivity.
Qed.

Lemma request_Returned {A} (e : event) (reply : list event -> exn + A) m a m' :
  request e reply m = (Returned a, m') ->
  reply (trace m ++ [e]) = inr a /\
  m' = {| this := this m; trace := trace m ++ [e] |}.
Proof.
  unfold request. destruct (reply (trace m ++ [e])) as [x|a0];
    intros Hr; inversion Hr; subst; split; reflexivity.
Qed.

Section Runs.
Context (H : Host).

Lemma deployContract_Returned w code args gas m c m' :
  deployContract H w code args gas m = (Returned c, m') ->
  exists art a h,
    code = Some art /\
    deployed H (trace m ++ [DeployContract w art args gas]) = inr (a, h) /\
    c = {| address := VString a; contract_interface := interface art;
           deployTransaction_hash := VString h |} /\
    m' = {| this := this m; trace := trace m ++ [DeployContract w art args gas] |}.
Proof.
  unfold deployContract. destruct code as [art|]; [|discriminate].
  intros Hr. apply bind_Returned in Hr as ([a h] & m1 & Hreq & Hret).
  apply request_Returned in Hreq as [Hrep ->].
  inversion Hret; subst. exists art, a, h. repeat split; assumption.
Qed.

Lemma invoke_wait_Returned c method args m m' :
  bind (invoke H c method args) (fun tx => wait H tx) m = (Returned tt, m') ->
  exists tx,
    submitted H (trace m ++ [Invoke (address c) method args]) = inr tx /\
    mined H (trace m ++ [Invoke (address c) method args; Wait tx]) = None /\
    m' = {| this := this m;
            trace := trace m ++ [Invoke (address c) method args; Wait tx] |}.
Proof.
  intros Hr. apply bind_Returned in Hr as (tx & m1 & Hinv & Hwait).
  apply request_Returned in Hinv as [Hsub ->].
  apply request_Returned in Hwait as [Hmined ->]. cbn [trace this] in *.
  rewrite <- app_assoc in *. cbn [app] in *.
  exists tx. repeat split; try assumption.
  destruct (mined H _); [discriminate|reflexivity].
Qed.

Lemma constructorArgs_Returned d name args :
  constructorArgs H d name = inr args ->
  exists g v f,
    encodedInitializationArgs H d "Governance" = inr g /\
    encodedInitializationArgs H d "Verifier" = inr v /\
    encodedInitializationArgs H d "Franklin" = inr f /\
    args = constructorArgs_table d g v f !! name.
Proof.
  unfold constructorArgs, and_then.
  destruct (encodedInitializationArgs H d "Governance") as [|g]; [discriminate|].
  destruct (encodedInitializationArgs H d "Verifier") as [|v]; [discriminate|].
  destruct (encodedInitializationArgs H d "Franklin") as [|f]; [discriminate|].
  intros Hr. inversion Hr. exists g, v, f. repeat split.
Qed.

Lemma constructorArgs_table_lookups d g v f :
  let t := constructorArgs_table d g v f in
  t !! "GovernanceTarget" = Some [] /\
  t !! "VerifierTarget" = Some [] /\
  t !! "FranklinTarget" = Some [] /\
  t !! "Governance" = Some [addr d "GovernanceTarget"; VBuffer g] /\
  t !! "Verifier" = Some [addr d "VerifierTarget"; VBuffer v] /\
  t !! "Franklin" = Some [addr d "FranklinTarget"; VBuffer f] /\
  t !! "UpgradeGatekeeper" = Some [addr d "Franklin"].
Proof. repeat split; reflexivity. Qed.

Ltac step_bind Hr :=
  let a := fresh "a" in let m1 := fresh "m" in let Hs := fresh "Hs" in
  apply bind_Returned in Hr as (a & m1 & Hs & Hr).

Lemma set_address_step name v m :
  set_address name v m
  = (Returned tt, {| this := with_address (this m) name v; trace := trace m |}).
Proof. reflexivity. Qed.

Lemma proxy_as_Returned target proxy m c m' :
  proxy_as target proxy m = (Returned c, m') ->
  address c = address proxy /\ m' = m.
Proof.
  unfold proxy_as, bind, get_this.
  destruct (bytecodes (this m) !! target); [|discriminate].
  intros Hr. inversion Hr. split; reflexivity.
Qed.

Lemma addr_with_address_eq d name v : addr (with_address d name v) name = v.
Proof. unfold addr, with_address. cbn. by rewrite lookup_insert_eq. Qed.

Lemma addr_with_address_ne d name name' v :
  name <> name' -> addr (with_address d name v) name' = addr d name'.
Proof. intros Hne. unfold addr, with_address. cbn. by rewrite lookup_insert_ne. Qed.

(** Reads the entry of the constructor-argument table out of [Hargs]. *)
Ltac read_table Hargs :=
  lazymatch type of Hargs with
  | _ = constructorArgs_table ?d ?g ?v ?f !! _ =>
      let L := fresh "L" in
      pose proof (constructorArgs_table_lookups d g v f) as L; cbv zeta in L;
      first [ rewrite (proj1 L) in Hargs
            | rewrite (proj1 (proj2 L)) in Hargs
            | rewrite (proj1 (proj2 (proj2 L))) in Hargs
            | rewrite (proj1 (proj2 (proj2 (proj2 L)))) in Hargs
            | rewrite (proj1 (proj2 (proj2 (proj2 (proj2 L))))) in Hargs
            | rewrite (proj1 (proj2 (proj2 (proj2 (proj2 (proj2 L)))))) in Hargs
            | rewrite (proj2 (proj2 (proj2 (proj2 (proj2 (proj2 L)))))) in Hargs ];
      clear L
  end.

Ltac deploy_pair Hr :=
  let tc := fresh "tc" in let ta := fresh "ta" in let th := fresh "th" in
  let pc := fresh "pc" in let pa := fresh "pa" in let ph := fresh "ph" in
  let g := fresh "g" in let v := fresh "v" in let f := fresh "f" in
  let Hg := fresh "Hg" in let Hv := fresh "Hv" in let Hf := fresh "Hf" in
  let Hargs := fresh "Hargs" in let Hm := fresh "Hm" in
  let Htc := fresh "Htc" in let Hpc := fresh "Hpc" in
  let Hdep1 := fresh "Hdep" in let Hdep2 := fresh "Hdep" in
  let Hc1 := fresh "Hc" in let Hc2 := fresh "Hc" in
  step_bind Hr;
  match goal with Hs : get_this _ = _ |- _ => inversion Hs; subst; clear Hs end;
  step_bind Hr;
  match goal with Hs : lift _ _ = _ |- _ => apply lift_Returned in Hs as [Hargs Hm]; subst end;
  apply constructorArgs_Returned in Hargs as (? & ? & ? & _ & _ & _ & Hargs);
  read_table Hargs; subst;
  step_bind Hr;
  match goal with Hs : deployContract _ _ _ _ _ _ = _ |- _ =>
    apply deployContract_Returned in Hs as (tc & ta & th & Htc & Hdep1 & Hc1 & Hm); subst end;
  rewrite bind_step with (1 := set_address_step _ _ _) in Hr;
  step_bind Hr;
  match goal with Hs : get_this _ = _ |- _ => inversion Hs; subst; clear Hs end;
  step_bind Hr;
  match goal with Hs : lift _ _ = _ |- _ => apply lift_Returned in Hs as [Hargs Hm]; subst end;
  apply constructorArgs_Returned in Hargs as (g & v & f & Hg & Hv & Hf & Hargs);
  read_table Hargs; subst;
  rewrite addr_with_address_eq in *;
  step_bind Hr;
  match goal with Hs : deployContract _ _ _ _ _ _ = _ |- _ =>
    apply deployContract_Returned in Hs as (pc & pa & ph & Hpc & Hdep2 & Hc2 & Hm); subst end;
  rewrite bind_step with (1 := set_address_step _ _ _) in Hr;
  cbn [this trace address with_address addresses bytecodes wallet] in *;
  rewrite <- app_assoc in Hdep2; cbn [app] in Hdep2;
  unfold deploys_target_then_proxy; cbn [String.append];
  exists tc, pc, ta, th, pa, ph.

Lemma deployGovernance_spec m c m' :
  deployGovernance H m = (Returned c, m') ->
  deploys_target_then_proxy H "Governance" 3000000 m m' c.
Proof.
  unfold deployGovernance. intros Hr. deploy_pair Hr. exists g.
  step_bind Hr. inversion Hs; subst; clear Hs.
  apply proxy_as_Returned in Hr as [Hc Hm]; subst.
  cbn [this trace address with_address addresses bytecodes wallet] in *.
  rewrite <- app_assoc. cbn [app].
  repeat split; try assumption; try reflexivity; by simplify_map_eq.
Qed.

Lemma deployVerifier_spec m c m' :
  deployVerifier H m = (Returned c, m') ->
  deploys_target_then_proxy H "Verifier" 3000000 m m' c.
Proof.
  unfold deployVerifier. intros Hr. deploy_pair Hr. exists v.
  apply proxy_as_Returned in Hr as [Hc Hm]; subst.
  cbn [this trace address with_address addresses bytecodes wallet] in *.
  rewrite <- app_assoc. cbn [app].
  repeat split; try assumption; try reflexivity; by simplify_map_eq.
Qed.

Lemma deployFranklin_spec m c m' :
  deployFranklin H m = (Returned c, m') ->
  deploys_target_then_proxy H "Franklin" 6500000 m m' c.
Proof.
  unfold deployFranklin. intros Hr. deploy_pair Hr. exists f.
  step_bind Hr. inversion Hs; subst; clear Hs.
  apply proxy_as_Returned in Hr as [Hc Hm]; subst.
  cbn [this trace address with_address addresses bytecodes wallet] in *.
  rewrite <- app_assoc. cbn [app].
  repeat split; try assumption; try reflexivity; by simplify_map_eq.
Qed.

(** C4: in every run of [deployGovernance], [deployVerifier] and
    [deployFranklin] that returns, the method has first deployed the target
    artifact, then the proxy artifact with the address just recorded for the
    target and the encoded initialization arguments as constructor
    arguments, and [addresses] holds the target's and the proxy's address
    under their names. *)
Theorem deploy_methods_target_then_proxy m c m' :
  (deployGovernance H m = (Returned c, m') ->
     deploys_target_then_proxy H "Governance" 3000000 m m' c) /\
  (deployVerifier H m = (Returned c, m') ->
     deploys_target_then_proxy H "Verifier" 3000000 m m' c) /\
  (deployFranklin H m = (Returned c, m') ->
     deploys_target_then_proxy H "Franklin" 6500000 m m' c).
Proof.
  split; [|split].
  - apply deployGovernance_spec.
  - apply deployVerifier_spec.
  - apply deployFranklin_spec.
Qed.

Lemma getDeployedContract_Returned d name c :
  getDeployedContract d name = inr c -> address c = addr d name.
Proof.
  unfold getDeployedContract. destruct (bytecodes d !! name); [|discriminate].
  intros Hc. inversion Hc. reflexivity.
Qed.

Lemma transferMastership_of_Returned name to m m' :
  transferMastership_of H name to m = (Returned tt, m') ->
  exists tx,
    m' = {| this := this m;
            trace := trace m ++ [Invoke (addr (this m) name) "transferMastership" [to]; Wait tx] |}.
Proof.
  unfold transferMastership_of. intros Hr.
  step_bind Hr. inversion Hs; subst; clear Hs.
  step_bind Hr. apply lift_Returned in Hs as [Hc Hm]; subst.
  apply getDeployedContract_Returned in Hc.
  apply invoke_wait_Returned in Hr as (tx & _ & _ & ->).
  exists tx. rewrite Hc. reflexivity.
Qed.

Lemma addUpgradeable_of_Returned contract name m m' :
  addUpgradeable_of H contract name m = (Returned tt, m') ->
  exists tx,
    m' = {| this := this m;
            trace := trace m ++ [Invoke (address contract) "addUpgradeable" [addr (this m) name]; Wait tx] |}.
Proof.
  unfold addUpgradeable_of. intros Hr.
  step_bind Hr. inversion Hs; subst; clear Hs.
  step_bind Hr. apply lift_Returned in Hs as [Hc Hm]; subst.
  apply getDeployedContract_Returned in Hc.
  apply invoke_wait_Returned in Hr as (tx & _ & _ & ->).
  exists tx. rewrite Hc. reflexivity.
Qed.

(** C5: in every run of [deployUpgradeGatekeeper] that returns, the
    interaction is, in this order: the deployment of the UpgradeGatekeeper
    artifact with the Franklin proxy address as its only constructor
    argument; [transferMastership(gatekeeper)] on the Governance, Verifier
    and Franklin proxies; [addUpgradeable] of the Governance, Verifier and
    Franklin proxy addresses on the gatekeeper; each transaction is waited
    for before the next, and the gatekeeper's address is recorded. *)
Theorem deployUpgradeGatekeeper_order m contract m' :
  deployUpgradeGatekeeper H m = (Returned contract, m') ->
  let d := this m in
  exists code gatekeeper tx1 tx2 tx3 tx4 tx5 tx6,
    bytecodes d !! "UpgradeGatekeeper" = Some code /\
    address contract = VString gatekeeper /\
    addresses (this m') !! "UpgradeGatekeeper" = Some (VString gatekeeper) /\
    trace m' = trace m ++
      [ DeployContract (wallet d) code (Some [addr d "Franklin"]) (Some 3000000);
        Invoke (addr d "Governance") "transferMastership" [VString gatekeeper]; Wait tx1;
        Invoke (addr d "Verifier") "transferMastership" [VString gatekeeper]; Wait tx2;
        Invoke (addr d "Franklin") "transferMastership" [VString gatekeeper]; Wait tx3;
        Invoke (VString gatekeeper) "addUpgradeable" [addr d "Governance"]; Wait tx4;
        Invoke (VString gatekeeper) "addUpgradeable" [addr d "Verifier"]; Wait tx5;
        Invoke (VString gatekeeper) "addUpgradeable" [addr d "Franklin"]; Wait tx6 ].
Proof.
  intros Hr. cbv zeta. unfold deployUpgradeGatekeeper in Hr.
  step_bind Hr. inversion Hs; subst; clear Hs.
  step_bind Hr. apply lift_Returned in Hs as [Hargs Hm]; subst.
  apply constructorArgs_Returned in Hargs as (? & ? & ? & _ & _ & _ & Hargs).
  read_table Hargs. subst.
  step_bind Hr.
  apply deployContract_Returned in Hs as (code & gk & h & Hcode & _ & Hc & Hm); subst.
  rewrite bind_step with (1 := set_address_step _ _ _) in Hr.
  repeat (step_bind Hr;
          match goal with
          | Hs : transferMastership_of _ _ _ _ = (Returned ?u, _) |- _ =>
              destruct u; apply transferMastership_of_Returned in Hs as [? ->]
          | Hs : addUpgradeable_of _ _ _ _ = (Returned ?u, _) |- _ =>
              destruct u; apply addUpgradeable_of_Returned in Hs as [? ->]
          end).
  inversion Hr; subst; clear Hr.
  cbn [this trace address] in *.
  rewrite !(addr_with_address_ne (this m0) "UpgradeGatekeeper") by discriminate.
  exists code, gk. do 6 eexists.
  repeat split; try assumption; try reflexivity.
  - cbn. by simplify_map_eq.
  - rewrite <- !app_assoc. reflexivity.
Qed.

End Runs.

(** ** Source publication *)

Section Publication.
Context (H : Host).

(** What the method does with the reply [r] to its submission. *)
Lemma publish_after_post fuel contractname m sourceCode constructorArguments r :
  gathered H (trace m ++ [GatherSources (contractPath_of contractname)]) = inr sourceCode ->
  encodedConstructorArgs H (this m) contractname = inr constructorArguments ->
  posted H (submitted_trace H m contractname sourceCode constructorArguments) = inr r ->
  publishSourceCodeToEtherscan H (S fuel) contractname m =
  (if negb (status r =? 1) then
     if includes (result r) "Unable to locate ContractCode" then
       bind (sleep 15000) (fun _ => publishSourceCodeToEtherscan H fuel contractname)
     else console_log ("Problem publishing " +:+ contractname +:+ ":") (Some r)
   else
     bind (poll H (result r) 10 None)
       (fun status => console_log (published_message H (this m) contractname) status))
    {| this := this m;
       trace := submitted_trace H m contractname sourceCode constructorArguments |}.
Proof.
  intros Hsrc Hargs Hpost. unfold submitted_trace in *.
  cbn [publishSourceCodeToEtherscan].
  unfold bind at 1. unfold getSolidityInput, request. rewrite Hsrc.
  unfold bind at 1. unfold get_this. cbn [this trace].
  unfold bind at 1. rewrite Hargs. cbn [lift ret].
  unfold bind at 1. unfold Axios_post, request. cbn [this trace].
  rewrite <- app_assoc. cbn [app]. rewrite Hpost.
  reflexivity.
Qed.

(** C7: when the submission is answered with a status other than 1 and a
    result without 'Unable to locate ContractCode', the method logs the
    reply as it came, after "Problem publishing <name>:", and returns: one
    submission, no delay, no exception. *)
Theorem publish_problem_logged fuel contractname m sourceCode constructorArguments r :
  gathered H (trace m ++ [GatherSources (contractPath_of contractname)]) = inr sourceCode ->
  encodedConstructorArgs H (this m) contractname = inr constructorArguments ->
  posted H (submitted_trace H m contractname sourceCode constructorArguments) = inr r ->
  status r <> 1 ->
  includes (result r) "Unable to locate ContractCode" = false ->
  publishSourceCodeToEtherscan H (S fuel) contractname m =
    (Returned tt,
     {| this := this m;
        trace := submitted_trace H m contractname sourceCode constructorArguments
                 ++ [ConsoleLog ("Problem publishing " +:+ contractname +:+ ":") (Some r)] |}).
Proof.
  intros Hsrc Hargs Hpost Hstatus Hresult.
  rewrite (publish_after_post _ _ _ _ _ _ Hsrc Hargs Hpost), Hresult.
  apply Z.eqb_neq in Hstatus. rewrite Hstatus. reflexivity.
Qed.

Lemma poll_S guid n status m :
  let url := checkverifystatus guid in
  poll H guid (S n) status m =
  match got H (trace m ++ [AxiosGet url]) with
  | inl e => (Thrown e, {| this := this m; trace := trace m ++ [AxiosGet url] |})
  | inr st =>
      if includes (result st) "Pending in queue"
      then poll H guid n (Some st)
             {| this := this m; trace := trace m ++ [AxiosGet url; Sleep 5000] |}
      else (Returned (Some st), {| this := this m; trace := trace m ++ [AxiosGet url] |})
  end.
Proof.
  intros url. cbn [poll]. unfold bind at 1. unfold Axios_get, request. fold url.
  destruct (got H (trace m ++ [AxiosGet url])) as [e|st]; [reflexivity|].
  destruct (includes (result st) "Pending in queue"); cbn [negb]; [|reflexivity].
  unfold bind, sleep, emit. cbn [this trace]. rewrite <- app_assoc. reflexivity.
Qed.

(** The loop, run with [n] rounds left from a machine [m]: [k <= n] rounds
    are answered with a pending status; if [k = n] the loop ends there,
    otherwise one more request is made, whose reply ends the loop. *)
Lemma poll_run guid n : forall status m,
  let url := checkverifystatus guid in
  exists k, (k <= n)%nat /\
    (forall j, (j < k)%nat ->
       pending (got H (trace m ++ polls url j ++ [AxiosGet url])) = true) /\
    ((k = n /\
      exists status',
        poll H guid n status m
        = (Returned status', {| this := this m; trace := trace m ++ polls url n |}))
     \/
     ((k < n)%nat /\
      pending (got H (trace m ++ polls url k ++ [AxiosGet url])) = false /\
      poll H guid n status m
      = (match got H (trace m ++ polls url k ++ [AxiosGet url]) with
         | inr st => Returned (Some st)
         | inl e => Thrown e
         end,
         {| this := this m; trace := trace m ++ polls url k ++ [AxiosGet url] |}))).
Proof.
  induction n as [|n IH]; intros status m url.
  - exists O. split; [lia|]. split; [intros j Hj; lia|]. left. split; [reflexivity|].
    exists status. cbn. rewrite app_nil_r. by destruct m.
  - rewrite !poll_S. fold url.
    destruct (got H (trace m ++ [AxiosGet url])) as [e|st] eqn:Hgot.
    + exists O. split; [lia|]. split; [intros j Hj; lia|]. right.
      cbn [polls app]. rewrite Hgot. split; [lia|]. split; reflexivity.
    + destruct (includes (result st) "Pending in queue") eqn:Hpend.
      * destruct (IH (Some st)
                    {| this := this m;
                       trace := trace m ++ [AxiosGet url; Sleep 5000] |})
          as (k & Hk & Hall & Hend).
        cbn [this trace] in *. fold url in Hall, Hend.
        assert (forall l, (trace m ++ [AxiosGet url; Sleep 5000]) ++ l
                          = trace m ++ AxiosGet url :: Sleep 5000 :: l) as Happ.
        { intros l. rewrite <- !app_assoc. reflexivity. }
        exists (S k). split; [lia|]. split.
        { intros [|j] Hj.
          - cbn [polls app]. rewrite Hgot. exact Hpend.
          - cbn [polls app]. rewrite <- (Happ (polls url j ++ [AxiosGet url])).
            apply Hall. lia. }
        destruct Hend as [[-> (st' & Hrun)] | (Hlt & Hstop & Hrun)].
        -- left. split; [reflexivity|]. exists st'. rewrite Hrun, Happ. reflexivity.
        -- right. split; [lia|]. cbn [polls app].
           rewrite <- (Happ (polls url k ++ [AxiosGet url])).
           split; [exact Hstop|]. rewrite Hrun. reflexivity.
      * exists O. split; [lia|]. split; [intros j Hj; lia|]. right.
        cbn [polls app]. rewrite Hgot. cbn [pending]. rewrite Hpend.
        split; [lia|]. split; reflexivity.
Qed.

(** C6: after a submission answered with status 1 the method asks for the
    verification status at most 10 times, waits 5 seconds after each reply
    that still contains 'Pending in queue', and makes no further request
    after the first reply that does not. *)
Theorem publish_polls_at_most_ten fuel contractname m sourceCode constructorArguments r :
  gathered H (trace m ++ [GatherSources (contractPath_of contractname)]) = inr sourceCode ->
  encodedConstructorArgs H (this m) contractname = inr constructorArguments ->
  posted H (submitted_trace H m contractname sourceCode constructorArguments) = inr r ->
  status r = 1 ->
  let before := submitted_trace H m contractname sourceCode constructorArguments in
  let url := checkverifystatus (result r) in
  let message := published_message H (this m) contractname in
  let run := publishSourceCodeToEtherscan H (S fuel) contractname m in
  exists k, (k <= 10)%nat /\
    (forall j, (j < k)%nat ->
       pending (got H (before ++ polls url j ++ [AxiosGet url])) = true) /\
    ((k = 10%nat /\
      exists status',
        run = (Returned tt,
               {| this := this m;
                  trace := before ++ polls url 10 ++ [ConsoleLog message status'] |}))
     \/
     ((k < 10)%nat /\
      pending (got H (before ++ polls url k ++ [AxiosGet url])) = false /\
      run = match got H (before ++ polls url k ++ [AxiosGet url]) with
            | inr st =>
                (Returned tt,
                 {| this := this m;
                    trace := before ++ polls url k
                             ++ [AxiosGet url; ConsoleLog message (Some st)] |})
            | inl e =>
                (Thrown e,
                 {| this := this m;
                    trace := before ++ polls url k ++ [AxiosGet url] |})
            end)).
Proof.
  intros Hsrc Hargs Hpost Hstatus before url message run.
  subst run. rewrite (publish_after_post _ _ _ _ _ _ Hsrc Hargs Hpost).
  apply Z.eqb_eq in Hstatus. rewrite Hstatus. cbn [negb]. fold before message.
  destruct (poll_run (result r) 10 None {| this := this m; trace := before |})
    as (k & Hk & Hall & Hend).
  cbn [this trace] in *. fold url in Hall, Hend.
  exists k. split; [exact Hk|]. split; [exact Hall|].
  destruct Hend as [[-> (st' & Hrun)] | (Hlt & Hstop & Hrun)].
  - left. split; [reflexivity|]. exists st'.
    unfold bind. rewrite Hrun. unfold console_log, emit. cbn [this trace].
    rewrite <- app_assoc. reflexivity.
  - right. split; [exact Hlt|]. split; [exact Hstop|].
    unfold bind. rewrite Hrun.
    destruct (got H (before ++ polls url k ++ [AxiosGet url])) as [e|st].
    + reflexivity.
    + unfold console_log, emit. cbn [this trace].
      rewrite <- !app_assoc. reflexivity.
Qed.

(** The status loop makes no submission. *)
Lemma poll_adds_no_post guid n : forall status m,
  exists new,
    trace (poll H guid n status m).2 = trace m ++ new /\
    Forall (fun e => is_post e = false) new.
Proof.
  induction n as [|n IH]; intros status m.
  - exists []. cbn. rewrite app_nil_r. split; [reflexivity|constructor].
  - rewrite poll_S.
    destruct (got H (trace m ++ [AxiosGet (checkverifystatus guid)])) as [e|st].
    + eexists. split; [reflexivity|]. repeat constructor.
    + destruct (includes (result st) "Pending in queue").
      * destruct (IH (Some st)
                    {| this := this m;
                       trace := trace m ++ [AxiosGet (checkverifystatus guid); Sleep 5000] |})
          as (new & Htr & Hnew).
        rewrite Htr. cbn [trace]. rewrite <- app_assoc.
        eexists. split; [reflexivity|]. repeat constructor. exact Hnew.
      * eexists. split; [reflexivity|]. repeat constructor.
Qed.

Lemma in_snoc {A} (x y : A) (l : list A) : In x (l ++ [y]) -> In x l \/ x = y.
Proof.
  intros Hin. apply in_app_or in Hin as [Hin|[Heq|[]]]; [by left|by right].
Qed.

(** Every submission a run of the method makes carries the value of
    ETHERSCAN_API_KEY as its [apikey]. *)
Lemma publish_apikey fuel : forall contractname m url data,
  In (AxiosPost url data) (trace (publishSourceCodeToEtherscan H fuel contractname m).2) ->
  In (AxiosPost url data) (trace m) \/ apikey data = getenv H "ETHERSCAN_API_KEY".
Proof.
  induction fuel as [|fuel IH]; intros contractname m url data; [cbn; by left|].
  cbn [publishSourceCodeToEtherscan].
  unfold bind at 1. unfold getSolidityInput, request.
  destruct (gathered H _) as [e|sourceCode]; cbn [snd trace].
  { intros Hin. apply in_snoc in Hin as [Hin|Heq]; [by left|discriminate]. }
  unfold bind at 1. unfold get_this. cbn [this trace].
  unfold bind at 1.
  destruct (encodedConstructorArgs H (this m) contractname) as [e|args]; cbn [lift throw ret].
  { cbn [snd trace]. intros Hin.
    apply in_snoc in Hin as [Hin|Heq]; [by left|discriminate]. }
  unfold bind at 1. unfold Axios_post, request. cbn [this trace].
  set (before := (trace m ++ [GatherSources (contractPath_of contractname)]) ++ _).
  assert (In (AxiosPost url data) before ->
          In (AxiosPost url data) (trace m) \/ apikey data = getenv H "ETHERSCAN_API_KEY")
    as Hbefore.
  { subst before. intros Hin. apply in_snoc in Hin as [Hin|Heq].
    - apply in_snoc in Hin as [Hin|Heq]; [by left|discriminate].
    - right. inversion Heq. reflexivity. }
  destruct (posted H before) as [e|r]; [exact Hbefore|].
  destruct (negb (status r =? 1)).
  - destruct (includes (result r) "Unable to locate ContractCode").
    + unfold bind, sleep, emit. cbn [this trace Z.ltb Z.compare].
      intros Hin. apply IH in Hin as [Hin|Hkey]; [|by right]. cbn [trace] in Hin.
      apply in_snoc in Hin as [Hin|Heq]; [by apply Hbefore|discriminate].
    + unfold console_log, emit. cbn [snd this trace]. intros Hin.
      apply in_snoc in Hin as [Hin|Heq]; [by apply Hbefore|discriminate].
  - unfold bind.
    destruct (poll_adds_no_post (result r) 10 None {| this := this m; trace := before |})
      as (new & Htr & Hnew).
    destruct (poll H (result r) 10 None _) as [[st| |] m1]; cbn [snd trace] in *.
    + unfold console_log, emit. cbn [snd trace]. rewrite Htr. intros Hin.
      apply in_snoc in Hin as [Hin|Heq]; [|discriminate].
      apply in_app_or in Hin as [Hin|Hin]; [by apply Hbefore|].
      rewrite Forall_forall in Hnew. apply list_elem_of_In, Hnew in Hin. discriminate.
    + rewrite Htr. intros Hin.
      apply in_app_or in Hin as [Hin|Hin]; [by apply Hbefore|].
      rewrite Forall_forall in Hnew. apply list_elem_of_In, Hnew in Hin. discriminate.
    + rewrite Htr. intros Hin.
      apply in_app_or in Hin as [Hin|Hin]; [by apply Hbefore|].
      rewrite Forall_forall in Hnew. apply list_elem_of_In, Hnew in Hin. discriminate.
Qed.

(** C8: a freshly constructed Deployer holds, for each of the seven contract
    names, the value of the corresponding environment variable as its
    address, and every verification request the method submits has the value
    of ETHERSCAN_API_KEY as its API key. *)
Theorem addresses_and_apikey_from_environment (w : Wallet) (isTest : bool) :
  let d := new_Deployer H w isTest in
  (addr d "GovernanceTarget" = getenv H "GOVERNANCE_TARGET_ADDR" /\
   addr d "VerifierTarget" = getenv H "VERIFIER_TARGET_ADDR" /\
   addr d "FranklinTarget" = getenv H "CONTRACT_TARGET_ADDR" /\
   addr d "Governance" = getenv H "GOVERNANCE_ADDR" /\
   addr d "Verifier" = getenv H "VERIFIER_ADDR" /\
   addr d "Franklin" = getenv H "CONTRACT_ADDR" /\
   addr d "UpgradeGatekeeper" = getenv H "UPGRADE_GATEKEEPER_ADDR") /\
  (forall fuel contractname tr url data,
     In (AxiosPost url data)
        (trace (publishSourceCodeToEtherscan H fuel contractname
                  {| this := d; trace := tr |}).2) ->
     In (AxiosPost url data) tr \/
     apikey data = match process_env H !! "ETHERSCAN_API_KEY" with
                   | Some key => VString key
                   | None => VUndefined
                   end).
Proof.
  split.
  - repeat split; reflexivity.
  - intros fuel contractname tr url data Hin.
    apply publish_apikey in Hin. exact Hin.
Qed.

End Publication.

(** ** Test tokens *)

Lemma bind_settles {A B} (c : M A) (k : A -> M B) :
  settles c -> (forall a, settles (k a)) -> settles (bind c k).
Proof.
  intros Hc Hk m. unfold bind. specialize (Hc m).
  destruct (c m) as [[a| |] m1]; cbn in *; [apply Hk|discriminate|congruence].
Qed.

Lemma request_settles {A} e (reply : list event -> exn + A) : settles (request e reply).
Proof. intros m. unfold request. cbn. destruct (reply _); discriminate. Qed.

Lemma ret_settles {A} (a : A) : settles (ret a).
Proof. intros m. discriminate. Qed.

Section Tokens.
Context (H : Host).

Lemma deployContract_settles w code args gas : settles (deployContract H w code args gas).
Proof.
  unfold deployContract. destruct code as [c|]; [|intros m; discriminate].
  apply bind_settles; [apply request_settles|]. intros [a h]. apply ret_settles.
Qed.

Lemma addTestERC20Token_try_settles w governance :
  settles (addTestERC20Token_try H w governance).
Proof.
  unfold addTestERC20Token_try, invoke, wait.
  repeat first [ apply deployContract_settles
               | apply request_settles
               | apply ret_settles
               | apply bind_settles; [|intros ?] ].
Qed.

Lemma mintTestERC20Token_try_settles w erc20 :
  settles (mintTestERC20Token_try H w erc20).
Proof.
  unfold mintTestERC20Token_try, invoke, wait.
  repeat first [ apply request_settles
               | apply bind_settles; [|intros ?] ].
Qed.

Lemma addTestNotApprovedERC20Token_try_settles w :
  settles (addTestNotApprovedERC20Token_try H w).
Proof.
  unfold addTestNotApprovedERC20Token_try, invoke, wait.
  repeat first [ apply deployContract_settles
               | apply request_settles
               | apply ret_settles
               | apply bind_settles; [|intros ?] ].
Qed.

(** C2: [addTestERC20Token], [mintTestERC20Token] and
    [addTestNotApprovedERC20Token] return normally from every machine and
    for every argument; when the deployment, the minting or the registration
    inside them throws, the exception is written to the console with the
    function's prefix and the function returns undefined. *)
Theorem token_helpers_catch_and_log (w : Wallet) (governance erc20 : Contract) (m : machine) :
  (exists v m',
     addTestERC20Token H w governance m = (Returned v, m') /\
     forall e m1,
       addTestERC20Token_try H w governance m = (Thrown e, m1) ->
       v = None /\ m' = logged_error m1 ("Add token error:" +:+ e)) /\
  (exists m',
     mintTestERC20Token H w erc20 m = (Returned tt, m') /\
     forall e m1,
       mintTestERC20Token_try H w erc20 m = (Thrown e, m1) ->
       m' = logged_error m1 ("Mint token error:" +:+ e)) /\
  (exists v m',
     addTestNotApprovedERC20Token H w m = (Returned v, m') /\
     forall e m1,
       addTestNotApprovedERC20Token_try H w m = (Thrown e, m1) ->
       v = None /\ m' = logged_error m1 ("Add token error:" +:+ e)).
Proof.
  split; [|split].
  - unfold addTestERC20Token, try_catch.
    pose proof (addTestERC20Token_try_settles w governance m) as Hs.
    destruct (addTestERC20Token_try H w governance m) as [[v|e|] m1]; cbn in Hs.
    + exists v, m1. split; [reflexivity|]. intros; discriminate.
    + eexists _, _. split; [reflexivity|].
      intros e' m1' Heq. inversion Heq; subst. split; reflexivity.
    + congruence.
  - unfold mintTestERC20Token, try_catch.
    pose proof (mintTestERC20Token_try_settles w erc20 m) as Hs.
    destruct (mintTestERC20Token_try H w erc20 m) as [[[]|e|] m1]; cbn in Hs.
    + exists m1. split; [reflexivity|]. intros; discriminate.
    + eexists. split; [reflexivity|].
      intros e' m1' Heq. inversion Heq; subst. reflexivity.
    + congruence.
  - unfold addTestNotApprovedERC20Token, try_catch.
    pose proof (addTestNotApprovedERC20Token_try_settles w m) as Hs.
    destruct (addTestNotApprovedERC20Token_try H w m) as [[v|e|] m1]; cbn in Hs.
    + exists v, m1. split; [reflexivity|]. intros; discriminate.
    + eexists _, _. split; [reflexivity|].
      intros e' m1' Heq. inversion Heq; subst. split; reflexivity.
    + congruence.
Qed.

End Tokens.

(** ** Runs against concrete hosts *)

Lemma count_app p tr tr' : count p (tr ++ tr') = (count p tr + count p tr')%nat.
Proof. unfold count. by rewrite List.filter_app, length_app. Qed.

Lemma count_snoc p tr e :
  count p (tr ++ [e]) = (count p tr + (if p e then 1 else 0))%nat.
Proof.
  unfold count. rewrite List.filter_app, length_app. cbn [List.filter].
  destruct (p e); reflexivity.
Qed.

Lemma publish_never_indexes fuel : forall tr,
  let run := publishSourceCodeToEtherscan explorer_never_indexes fuel "Governance"
               {| this := new_Deployer explorer_never_indexes dev_wallet false;
                  trace := tr |} in
  run.1 = OutOfFuel /\
  count is_post (trace run.2) = (count is_post tr + fuel)%nat /\
  count (is_sleep 15000) (trace run.2) = (count (is_sleep 15000) tr + fuel)%nat.
Proof.
  induction fuel as [|fuel IH]; intros tr run; subst run.
  - cbn [publishSourceCodeToEtherscan diverge fst snd trace].
    rewrite !Nat.add_0_r. repeat split; reflexivity.
  - rewrite (publish_after_post explorer_never_indexes fuel "Governance" _
               "{}" (VString "abcdef") unlocated);
      [|reflexivity|vm_compute; reflexivity|reflexivity].
    change (negb (status unlocated =? 1)) with true.
    change (includes (result unlocated) "Unable to locate ContractCode") with true.
    cbv iota. unfold bind, sleep, emit. cbn [this trace].
    destruct (IH (submitted_trace explorer_never_indexes
                    {| this := new_Deployer explorer_never_indexes dev_wallet false;
                       trace := tr |} "Governance" "{}" (VString "abcdef")
                  ++ [Sleep 15000])) as (Hout & Hposts & Hsleeps).
    destruct (publishSourceCodeToEtherscan _ fuel _ _) as [[[]|e|] m1];
      cbn [fst snd] in *; try discriminate.
    unfold submitted_trace in *. cbn [this trace] in *.
    rewrite Hposts, Hsleeps, !count_snoc, !count_app.
    cbn. repeat split; lia.
Qed.

(** C1: the retries are not bounded by 20.  Against an explorer that never
    locates the code the method uses up any number of activations it is
    given, with one submission and one 15-second delay in each; against one
    that fails to locate it 25 times the method submits 26 times. *)
Theorem publish_retries_not_bounded :
  (forall fuel,
     let run := publishSourceCodeToEtherscan explorer_never_indexes fuel "Governance"
                  {| this := new_Deployer explorer_never_indexes dev_wallet false;
                     trace := [] |} in
     run.1 = OutOfFuel /\
     count is_post (trace run.2) = fuel /\
     count (is_sleep 15000) (trace run.2) = fuel) /\
  (let run := publishSourceCodeToEtherscan (explorer_indexes_after 25) 30 "Governance"
                {| this := new_Deployer (explorer_indexes_after 25) dev_wallet false;
                   trace := [] |} in
   run.1 = Returned tt /\
   count is_post (trace run.2) = 26%nat /\
   count (is_sleep 15000) (trace run.2) = 25%nat).
Proof.
  split.
  - intros fuel. exact (publish_never_indexes fuel []).
  - vm_compute. repeat split; reflexivity.
Qed.

(** C3, at a host where nothing fails: [addTestERC20Token] submits the mint
    and goes on to [addToken] without waiting for the mint's receipt, and
    [addTestNotApprovedERC20Token] returns without waiting for it, while
    [mintTestERC20Token] and [deployUpgradeGatekeeper] wait for every
    transaction they submit. *)
Theorem mint_receipt_not_awaited :
  trace (addTestERC20Token explorer_never_indexes dev_wallet dev_governance dev_machine).2
  = [ DeployContract dev_wallet (stub "ERC20Mintable" no_constructor) (Some []) (Some 3000000);
      Invoke (VString "0xc1") "mint"
        [VString (wallet_address dev_wallet); VNumber 3000000000000000000000000000];
      Invoke (VString "0xa4") "addToken" [VString "0xc1"];
      Wait "0xe2" ] /\
  receipts_awaited
    (trace (addTestERC20Token explorer_never_indexes dev_wallet dev_governance dev_machine).2)
  = false /\
  receipts_awaited
    (trace (addTestNotApprovedERC20Token explorer_never_indexes dev_wallet dev_machine).2)
  = false /\
  receipts_awaited
    (trace (mintTestERC20Token explorer_never_indexes dev_wallet dev_governance dev_machine).2)
  = true /\
  receipts_awaited (trace (deployUpgradeGatekeeper explorer_never_indexes dev_machine).2)
  = true.
Proof. vm_compute. repeat split; reflexivity. Qed.

(** ** Instances *)

Lemma deploy_methods_target_then_proxy_witness :
  (exists c m',
     deployGovernance explorer_never_indexes dev_machine = (Returned c, m') /\
     deploys_target_then_proxy explorer_never_indexes "Governance" 3000000 dev_machine m' c) /\
  (exists c m',
     deployVerifier explorer_never_indexes dev_machine = (Returned c, m') /\
     deploys_target_then_proxy explorer_never_indexes "Verifier" 3000000 dev_machine m' c) /\
  (exists c m',
     deployFranklin explorer_never_indexes dev_machine = (Returned c, m') /\
     deploys_target_then_proxy explorer_never_indexes "Franklin" 6500000 dev_machine m' c).
Proof.
  split; [|split].
  - eexists _, _. split; [vm_compute; reflexivity|].
    apply deploy_methods_target_then_proxy. vm_compute. reflexivity.
  - eexists _, _. split; [vm_compute; reflexivity|].
    apply deploy_methods_target_then_proxy. vm_compute. reflexivity.
  - eexists _, _. split; [vm_compute; reflexivity|].
    apply deploy_methods_target_then_proxy. vm_compute. reflexivity.
Defined.

Lemma deployUpgradeGatekeeper_order_witness :
  exists contract m',
    deployUpgradeGatekeeper explorer_never_indexes dev_machine = (Returned contract, m') /\
    exists tx1 tx2 tx3 tx4 tx5 tx6,
      trace m' =
        [ DeployContract dev_wallet (stub "UpgradeGatekeeper" gatekeeper_abi)
            (Some [VString "0xa6"]) (Some 3000000);
          Invoke (VString "0xa4") "transferMastership" [VString "0xc1"]; Wait tx1;
          Invoke (VString "0xa5") "transferMastership" [VString "0xc1"]; Wait tx2;
          Invoke (VString "0xa6") "transferMastership" [VString "0xc1"]; Wait tx3;
          Invoke (VString "0xc1") "addUpgradeable" [VString "0xa4"]; Wait tx4;
          Invoke (VString "0xc1") "addUpgradeable" [VString "0xa5"]; Wait tx5;
          Invoke (VString "0xc1") "addUpgradeable" [VString "0xa6"]; Wait tx6 ].
Proof.
  eexists _, _. split; [vm_compute; reflexivity|].
  edestruct (deployUpgradeGatekeeper_order explorer_never_indexes dev_machine)
    as (code & gatekeeper & tx1 & tx2 & tx3 & tx4 & tx5 & tx6 & Hcode & Hc & _ & Htr);
    [vm_compute; reflexivity|].
  vm_compute in Hcode, Hc. inversion Hcode; subst code. inversion Hc; subst gatekeeper.
  exists tx1, tx2, tx3, tx4, tx5, tx6. exact Htr.
Defined.

Lemma publish_problem_logged_witness :
  let H := explorer_indexes_after 0 in
  publishSourceCodeToEtherscan H 1 "Governance" (machine_of H) =
    (Returned tt,
     {| this := this (machine_of H);
        trace := submitted_trace H (machine_of H) "Governance" "{}" (VString "abcdef")
                 ++ [ConsoleLog "Problem publishing Governance:" (Some rejected)] |}).
Proof.
  intros H.
  apply (publish_problem_logged H 0 "Governance" (machine_of H) "{}" (VString "abcdef") rejected).
  - reflexivity.
  - vm_compute. reflexivity.
  - vm_compute. reflexivity.
  - vm_compute. discriminate.
  - vm_compute. reflexivity.
Defined.

Lemma publish_polls_at_most_ten_witness :
  let H := explorer_queues 2 in
  let before := submitted_trace H (machine_of H) "Governance" "{}" (VString "abcdef") in
  let url := checkverifystatus (result accepted) in
  let message := published_message H (this (machine_of H)) "Governance" in
  let run := publishSourceCodeToEtherscan H 1 "Governance" (machine_of H) in
  exists k, (k <= 10)%nat /\
    (forall j, (j < k)%nat ->
       pending (got H (before ++ polls url j ++ [AxiosGet url])) = true) /\
    ((k = 10%nat /\
      exists status',
        run = (Returned tt,
               {| this := this (machine_of H);
                  trace := before ++ polls url 10 ++ [ConsoleLog message status'] |}))
     \/
     ((k < 10)%nat /\
      pending (got H (before ++ polls url k ++ [AxiosGet url])) = false /\
      run = match got H (before ++ polls url k ++ [AxiosGet url]) with
            | inr st =>
                (Returned tt,
                 {| this := this (machine_of H);
                    trace := before ++ polls url k
                             ++ [AxiosGet url; ConsoleLog message (Some st)] |})
            | inl e =>
                (Thrown e,
                 {| this := this (machine_of H);
                    trace := before ++ polls url k ++ [AxiosGet url] |})
            end)).
Proof.
  intros H.
  apply (publish_polls_at_most_ten H 0 "Governance" (machine_of H) "{}"
           (VString "abcdef") accepted).
  - reflexivity.
  - vm_compute. reflexivity.
  - vm_compute. reflexivity.
  - reflexivity.
Defined.

(** The run of that instance: two queued replies, then the verified one. *)
Example publish_polls_twice_then_verified :
  let H := explorer_queues 2 in
  let url := checkverifystatus (result accepted) in
  publishSourceCodeToEtherscan H 1 "Governance" (machine_of H) =
    (Returned tt,
     {| this := this (machine_of H);
        trace := submitted_trace H (machine_of H) "Governance" "{}" (VString "abcdef")
                 ++ polls url 2
                 ++ [AxiosGet url;
                     ConsoleLog (published_message H (this (machine_of H)) "Governance")
                       (Some verified)] |}).
Proof. vm_compute. reflexivity. Qed.

Lemma addresses_and_apikey_from_environment_witness :
  let H := explorer_never_indexes in
  apikey (verifysourcecode H (this (machine_of H)) "Governance" "{}" (VString "abcdef"))
  = VString "KEY".
Proof.
  intros H.
  destruct (proj2 (addresses_and_apikey_from_environment H dev_wallet false)
              1%nat "Governance" [] (etherscanApiUrl H)
              (verifysourcecode H (this (machine_of H)) "Governance" "{}" (VString "abcdef")))
    as [[]|Hkey].
  - vm_compute. right. left. reflexivity.
  - exact Hkey.
Defined.

Lemma encodedConstructorArgs_spec_witness :
  let H := explorer_never_indexes in
  encodedConstructorArgs H (this (machine_of H)) "GovernanceTarget" = inr VNull /\
  encodedConstructorArgs H (this (machine_of H)) "Governance" = inr (VString "abcdef").
Proof.
  intros H. split.
  - apply (encodedConstructorArgs_spec H (this (machine_of H)) "GovernanceTarget"
             (stub "Governance" no_constructor) (Some [])).
    + reflexivity.
    + vm_compute. reflexivity.
    + repeat constructor. discriminate.
  - apply (encodedConstructorArgs_spec H (this (machine_of H)) "Governance"
             (stub "Proxy" proxy_abi) (Some [VString "0xa1"; VBuffer [Byte.x00]]))
      with (i := {| type := "constructor"; inputs := ["address"; "bytes"] |}).
    + reflexivity.
    + vm_compute. reflexivity.
    + reflexivity.
    + reflexivity.
Defined.

Lemma token_helpers_catch_and_log_witness :
  exists m',
    addTestERC20Token chain_refuses_calls dev_wallet dev_governance
      (machine_of chain_refuses_calls) = (Returned None, m') /\
    trace m' =
      [ DeployContract dev_wallet (stub "ERC20Mintable" no_constructor) (Some []) (Some 3000000);
        Invoke (VString "0xc1") "mint"
          [VString (wallet_address dev_wallet); VNumber 3000000000000000000000000000];
        ConsoleError "Add token error:Error: nonce too low" ].
Proof.
  destruct (token_helpers_catch_and_log chain_refuses_calls dev_wallet dev_governance
              dev_governance (machine_of chain_refuses_calls))
    as ((v & m' & Hrun & Hcatch) & _).
  edestruct Hcatch as [Hv Hm]; [vm_compute; reflexivity|].
  exists m'. split.
  - rewrite Hrun, Hv. reflexivity.
  - rewrite Hm. vm_compute. reflexivity.
Defined.

(** ** Strings and gathered sources *)

Lemma prefix_spec (p s : string) :
  String.prefix p s = true <-> exists post, s = p +:+ post.
Proof.
  revert s. induction p as [|c p IH]; intros s.
  - split; [intros _; exists s; reflexivity|]. intros _. by destruct s.
  - destruct s as [|c' s]; cbn.
    + split; [discriminate|]. intros [post Hpost]. discriminate.
    + destruct (Ascii.ascii_dec c c') as [->|Hne].
      * rewrite IH. split; intros [post Hpost]; exists post.
        -- rewrite Hpost. reflexivity.
        -- change (String c' s = String c' (p +:+ post)) in Hpost. congruence.
      * split; [discriminate|]. intros [post Hpost].
        change (String c' s = String c (p +:+ post)) in Hpost. congruence.
Qed.

(** X1: [s.includes(pat)] holds exactly when [pat] occurs in [s]: the test the
    script applies to the explorer's replies is the substring test. *)
Theorem includes_spec (s pat : string) :
  includes s pat = true <-> exists pre post, s = pre +:+ pat +:+ post.
Proof.
  induction s as [|c s IH].
  - cbn [includes]. rewrite orb_false_r, prefix_spec. split.
    + intros [post Hpost]. exists EmptyString, post. exact Hpost.
    + intros ([|c pre] & post & Hs); [|discriminate]. exists post. exact Hs.
  - cbn [includes]. rewrite orb_true_iff, prefix_spec, IH. split.
    + intros [[post Hpost] | (pre & post & Hs)].
      * exists EmptyString, post. exact Hpost.
      * exists (String c pre), post. rewrite Hs. reflexivity.
    + intros ([|c' pre] & post & Hs).
      * left. exists post. exact Hs.
      * right. exists pre, post.
        change (String c s = String c' (pre +:+ pat +:+ post)) in Hs. congruence.
Qed.







Lemma collect_sources_snoc input file :
  collect_sources (input ++ [file])
  = if String.eqb (file_url file) "__proto__" then collect_sources input
    else <[file_url file := file_source file]> (collect_sources input).
Proof. unfold collect_sources. by rewrite fold_left_app. Qed.

(** X3: the own keys of the [sources] object of [getSolidityInput]: under
    each relative URL other than [__proto__] the content of the last
    gathered file with that URL, and no other key; a file whose URL is
    [__proto__] adds no key. *)
Theorem solidity_sources_lookup (cwd : string) (gathered_files : list SourceFile) (u : string) :
  solidity_sources cwd gathered_files !! u
  = if String.eqb u "__proto__" then None
    else file_source <$>
           List.find (fun file => String.eqb (file_url file) u)
             (rev (List.map (relative_to cwd) gathered_files)).
Proof.
  unfold solidity_sources.
  induction gathered_files as [|file files IH] using rev_ind.
  { cbn. by destruct (String.eqb u "__proto__"). }
  rewrite List.map_app. cbn [List.map].
  rewrite rev_app_distr, collect_sources_snoc. cbn [rev app List.find].
  destruct (String.eqb_spec (file_url (relative_to cwd file)) "__proto__") as [Hp|Hp].
  - rewrite IH. destruct (String.eqb u "__proto__") eqn:Hu; [reflexivity|].
    destruct (String.eqb_spec (file_url (relative_to cwd file)) u) as [Heq|_];
      [|reflexivity].
    rewrite <- Heq, Hp in Hu. discriminate Hu.
  - destruct (String.eqb_spec (file_url (relative_to cwd file)) u) as [<-|Hne].
    + rewrite lookup_insert_eq.
      destruct (String.eqb_spec (file_url (relative_to cwd file)) "__proto__") as [Hq|_];
        [by destruct Hp|reflexivity].
    + rewrite lookup_insert_ne by exact Hne. exact IH.
Qed.

(** ** Lookups in a Deployer *)

Lemma append_split (a s t : string) :
  a +:+ s = t ->
  a = String.substring 0 (String.length a) t /\
  s = slice (String.length a) t /\
  String.length t = (String.length a + String.length s)%nat.
Proof.
  revert t. induction a as [|c a IH]; intros t Ht.
  - change (s = t) in Ht. subst t. cbn [String.length slice]. repeat split.
    by destruct s.
  - destruct t as [|c' t]; [discriminate|].
    change (String c (a +:+ s) = String c' t) in Ht. injection Ht as -> Ht.
    destruct (IH t Ht) as (Ha & Hs & Hlen).
    cbn [String.length String.substring slice]. rewrite <- Ha, <- Hs, Hlen. done.
Qed.

Section Lookups.
Context (H : Host) (w : Wallet) (isTest : bool).

Lemma bytecodes_fresh_dom (name : string) :
  is_Some (bytecodes (new_Deployer H w isTest) !! name) <->
  name ∈ ["GovernanceTarget"; "VerifierTarget"; "FranklinTarget";
          "Governance"; "Verifier"; "Franklin"; "UpgradeGatekeeper"].
Proof.
  rewrite <- elem_of_dom. cbn [new_Deployer bytecodes].
  rewrite !dom_insert_L, dom_singleton_L. set_solver.
Qed.

(** A name to which "Target" is appended is one of the constructor's seven
    names only as GovernanceTarget, VerifierTarget or FranklinTarget. *)
Lemma target_name (name : string) :
  name +:+ "Target" ∈ ["GovernanceTarget"; "VerifierTarget"; "FranklinTarget";
                      "Governance"; "Verifier"; "Franklin"; "UpgradeGatekeeper"] <->
  name ∈ ["Governance"; "Verifier"; "Franklin"].
Proof.
  rewrite !elem_of_cons, !elem_of_nil. split.
  - intros Hin.
    repeat match type of Hin with _ \/ _ => destruct Hin as [Hin|Hin] end;
      try contradiction;
      apply append_split in Hin as (Ha & Hs & Hlen);
      cbn [String.length] in Hlen;
      match type of Hlen with
      | ?n = (_ + 6)%nat =>
          first [ assert (String.length name = n - 6)%nat as Hn by lia
                | exfalso; lia ]
      end;
      cbn [Nat.sub] in Hn; rewrite Hn in Ha, Hs;
      first [ discriminate Hs | vm_compute in Ha; subst name; tauto ].
  - intros [->|[->|[->|[]]]]; cbn [String.append]; tauto.
Qed.

(** X4: on a fresh Deployer [getDeployedProxyContract(name)] is a TypeError
    for every name other than Governance, Verifier and Franklin, the three
    target names and UpgradeGatekeeper included: [bytecodes[name + "Target"]]
    is undefined, and its [.interface] is read before the contract is
    constructed. *)
Theorem getDeployedProxyContract_other_names (name : string) :
  name ∉ ["Governance"; "Verifier"; "Franklin"] ->
  bytecodes (new_Deployer H w isTest) !! (name +:+ "Target") = None /\
  getDeployedProxyContract (new_Deployer H w isTest) name = inl "TypeError".
Proof.
  intros Hnone. rewrite <- target_name, <- bytecodes_fresh_dom in Hnone.
  unfold getDeployedProxyContract.
  destruct (bytecodes (new_Deployer H w isTest) !! (name +:+ "Target")) eqn:Hcode;
    [|split; reflexivity].
  exfalso. apply Hnone. by eexists.
Qed.

(** X5: [encodedInitializationArgs] calls the encoder for exactly Governance,
    Verifier and Franklin, with as many values as types; for any other name,
    the target names included, it is a TypeError and the encoder is not
    called. *)
Theorem encodedInitializationArgs_names (d : Deployer) (name : string) :
  (name ∈ ["Governance"; "Verifier"; "Franklin"] ->
   exists types values,
     encodedInitializationArgs H d name = rawEncode H types values /\
     length types = length values) /\
  (name ∉ ["Governance"; "Verifier"; "Franklin"] ->
   encodedInitializationArgs H d name = inl "TypeError").
Proof.
  split.
  - rewrite !elem_of_cons, elem_of_nil.
    intros [->|[->|[->|[]]]]; eexists _, _; split; reflexivity.
  - assert (is_Some (initializationArgs H d name)
            -> name ∈ ["Governance"; "Verifier"; "Franklin"]) as Hdom.
    { unfold initializationArgs. rewrite <- elem_of_dom.
      rewrite !dom_insert_L, dom_singleton_L. set_solver. }
    intros Hnot. unfold encodedInitializationArgs.
    destruct (initializationArgs H d name) as [[tys vals]|] eqn:Hargs; [|reflexivity].
    exfalso. apply Hnot, Hdom. by eexists.
Qed.

End Lookups.

(** ** Eager constructor arguments *)

Section Eager.
Context (H : Host).

Lemma constructorArgs_inl (d : Deployer) (name : string) (e : exn) :
  constructorArgs H d name = inl e <->
    encodedInitializationArgs H d "Governance" = inl e \/
    (exists g, encodedInitializationArgs H d "Governance" = inr g /\
               encodedInitializationArgs H d "Verifier" = inl e) \/
    (exists g v, encodedInitializationArgs H d "Governance" = inr g /\
                 encodedInitializationArgs H d "Verifier" = inr v /\
                 encodedInitializationArgs H d "Franklin" = inl e).
Proof.
  unfold constructorArgs, and_then.
  destruct (encodedInitializationArgs H d "Governance") as [eg|g];
    [|destruct (encodedInitializationArgs H d "Verifier") as [ev|v];
      [|destruct (encodedInitializationArgs H d "Franklin") as [ef|f]]].
  - split; [intros [= ->]; by left|]. intros [[= ->]|[(? & [=] & _)|(? & ? & [=] & _)]].
    reflexivity.
  - split; [intros [= ->]; right; left; by exists g|].
    intros [[=]|[(? & _ & [= ->])|(? & ? & _ & [=] & _)]]. reflexivity.
  - split; [intros [= ->]; right; right; by exists g, v|].
    intros [[=]|[(? & _ & [=])|(? & ? & _ & _ & [= ->])]]. reflexivity.
  - split; [intros [=]|].
    intros [[=]|[(? & _ & [=])|(? & ? & _ & _ & [=])]].
Qed.

Lemma constructorArgs_inl_any (d : Deployer) (name name' : string) (e : exn) :
  constructorArgs H d name = inl e -> constructorArgs H d name' = inl e.
Proof. rewrite !constructorArgs_inl. done. Qed.

(** X6: [constructorArgs] throws exactly when one of the three initialization
    encodings throws, whichever name is asked for: a failure for one name is
    the same failure for every name, the target names with their empty
    argument lists included, and [encodedConstructorArgs] then throws it
    too, before it looks at any ABI. *)
Theorem constructorArgs_fails_for_every_name (d : Deployer) (name : string) (e : exn) :
  (constructorArgs H d name = inl e <->
     encodedInitializationArgs H d "Governance" = inl e \/
     (exists g, encodedInitializationArgs H d "Governance" = inr g /\
                encodedInitializationArgs H d "Verifier" = inl e) \/
     (exists g v, encodedInitializationArgs H d "Governance" = inr g /\
                  encodedInitializationArgs H d "Verifier" = inr v /\
                  encodedInitializationArgs H d "Franklin" = inl e)) /\
  (constructorArgs H d name = inl e ->
   forall name', constructorArgs H d name' = inl e /\
                 encodedConstructorArgs H d name' = inl e).
Proof.
  split; [apply constructorArgs_inl|].
  intros Hfail name'. apply (constructorArgs_inl_any d name name') in Hfail.
  split; [exact Hfail|]. unfold encodedConstructorArgs. by rewrite Hfail.
Qed.

(** X7: when the constructor arguments cannot be computed, each deploy method
    throws that exception before it asks the chain for anything: no request
    is made and the Deployer is as it was. *)
Theorem deploy_methods_need_constructorArgs (m : machine) (name : string) (e : exn) :
  constructorArgs H (this m) name = inl e ->
  deployGovernance H m = (Thrown e, m) /\
  deployVerifier H m = (Thrown e, m) /\
  deployFranklin H m = (Thrown e, m) /\
  deployUpgradeGatekeeper H m = (Thrown e, m).
Proof.
  intros Hfail.
  assert (forall A n (k : option (list value) -> M A),
            bind get_this (fun d => bind (lift (constructorArgs H d n)) k) m
            = (Thrown e, m)) as Hthrow.
  { intros A n k. unfold bind, get_this.
    by rewrite (constructorArgs_inl_any (this m) name n e Hfail). }
  repeat split; apply Hthrow.
Qed.

End Eager.

(** ** What a run leaves alone *)

Section Preservation.
Context (R : machine -> machine -> Prop).
Hypothesis R_refl : forall m, R m m.
Hypothesis R_trans : forall m1 m2 m3, R m1 m2 -> R m2 m3 -> R m1 m3.
Hypothesis R_emit : forall m e, R m {| this := this m; trace := trace m ++ [e] |}.

Lemma preserves_ret {A} (a : A) : preserves R (ret a).
Proof. intros m. apply R_refl. Qed.

Lemma preserves_throw {A} e : preserves R (@throw A e).
Proof. intros m. apply R_refl. Qed.

Lemma preserves_diverge {A} : preserves R (@diverge A).
Proof. intros m. apply R_refl. Qed.

Lemma preserves_lift {A} (r : exn + A) : preserves R (lift r).
Proof. destruct r; [apply preserves_throw|apply preserves_ret]. Qed.

Lemma preserves_get_this : preserves R get_this.
Proof. intros m. apply R_refl. Qed.

Lemma preserves_emit e : preserves R (emit e).
Proof. intros m. apply R_emit. Qed.

Lemma preserves_request {A} e (reply : list event -> exn + A) :
  preserves R (request e reply).
Proof. intros m. apply R_emit. Qed.

Lemma preserves_bind {A B} (c : M A) (k : A -> M B) :
  preserves R c -> (forall a, preserves R (k a)) -> preserves R (bind c k).
Proof.
  intros Hc Hk m. unfold bind. specialize (Hc m).
  destruct (c m) as [[a|e|] m1]; cbn [snd] in *; [|exact Hc..].
  eapply R_trans; [exact Hc|apply Hk].
Qed.

Lemma preserves_try_catch {A} (body : M A) (handler : exn -> M A) :
  preserves R body -> (forall e, preserves R (handler e)) ->
  preserves R (try_catch body handler).
Proof.
  intros Hb Hh m. unfold try_catch. specialize (Hb m).
  destruct (body m) as [[a|e|] m1]; cbn [snd] in *; [exact Hb| |exact Hb].
  eapply R_trans; [exact Hb|apply Hh].
Qed.

Context (H : Host).

Lemma preserves_deployContract w code args gas :
  preserves R (deployContract H w code args gas).
Proof.
  unfold deployContract. destruct code as [c|]; [|apply preserves_throw].
  apply preserves_bind; [apply preserves_request|]. intros [a h]. apply preserves_ret.
Qed.

Lemma preserves_poll guid n : forall status, preserves R (poll H guid n status).
Proof.
  induction n as [|n IH]; intros status; [apply preserves_ret|].
  cbn [poll]. apply preserves_bind; [apply preserves_request|]. intros st.
  destruct (negb _); [apply preserves_ret|].
  apply preserves_bind; [apply preserves_emit|]. intros _. apply IH.
Qed.

Lemma preserves_publish fuel : forall contractname,
  preserves R (publishSourceCodeToEtherscan H fuel contractname).
Proof.
  induction fuel as [|fuel IH]; intros contractname; [apply preserves_diverge|].
  cbn [publishSourceCodeToEtherscan].
  apply preserves_bind; [apply preserves_request|]. intros sourceCode.
  apply preserves_bind; [apply preserves_get_this|]. intros d.
  apply preserves_bind; [apply preserves_lift|]. intros args.
  apply preserves_bind; [apply preserves_request|]. intros r.
  destruct (negb _).
  - destruct (includes _ _); [|apply preserves_emit].
    apply preserves_bind; [apply preserves_emit|]. intros _. apply IH.
  - apply preserves_bind; [apply preserves_poll|]. intros st. apply preserves_emit.
Qed.

Lemma preserves_addTestERC20Token w governance :
  preserves R (addTestERC20Token H w governance).
Proof.
  apply preserves_try_catch.
  - unfold addTestERC20Token_try, invoke, wait.
    repeat first [ apply preserves_deployContract | apply preserves_request
                 | apply preserves_ret | apply preserves_bind; [|intros ?] ].
  - intros e. apply preserves_bind; [apply preserves_emit|]. intros _. apply preserves_ret.
Qed.

Lemma preserves_mintTestERC20Token w erc20 :
  preserves R (mintTestERC20Token H w erc20).
Proof.
  apply preserves_try_catch.
  - unfold mintTestERC20Token_try, invoke, wait.
    repeat first [ apply preserves_request | apply preserves_bind; [|intros ?] ].
  - intros e. apply preserves_emit.
Qed.

Lemma preserves_addTestNotApprovedERC20Token w :
  preserves R (addTestNotApprovedERC20Token H w).
Proof.
  apply preserves_try_catch.
  - unfold addTestNotApprovedERC20Token_try, invoke, wait.
    repeat first [ apply preserves_deployContract | apply preserves_request
                 | apply preserves_ret | apply preserves_bind; [|intros ?] ].
  - intros e. apply preserves_bind; [apply preserves_emit|]. intros _. apply preserves_ret.
Qed.

End Preservation.

Lemma same_deployer_refl m : same_deployer m m.
Proof. split; [reflexivity|]. exists []. by rewrite app_nil_r. Qed.

Lemma same_deployer_trans m1 m2 m3 :
  same_deployer m1 m2 -> same_deployer m2 m3 -> same_deployer m1 m3.
Proof.
  intros [H12 [n12 T12]] [H23 [n23 T23]]. split; [congruence|].
  exists (n12 ++ n23). by rewrite T23, T12, app_assoc.
Qed.

Lemma same_deployer_emit m e :
  same_deployer m {| this := this m; trace := trace m ++ [e] |}.
Proof. split; [reflexivity|]. by exists [e]. Qed.

(** X12: publishing sources and the three token helpers never change the
    Deployer (wallet, artifacts, addresses, transaction hashes), whatever
    the host replies and however the run ends, and they only append to the
    interaction. *)
Theorem publication_and_tokens_keep_the_deployer (H : Host) (m : machine) :
  (forall fuel contractname,
     same_deployer m (publishSourceCodeToEtherscan H fuel contractname m).2) /\
  (forall w governance, same_deployer m (addTestERC20Token H w governance m).2) /\
  (forall w erc20, same_deployer m (mintTestERC20Token H w erc20 m).2) /\
  (forall w, same_deployer m (addTestNotApprovedERC20Token H w m).2).
Proof.
  split; [|split; [|split]]; intros.
  - apply (preserves_publish same_deployer same_deployer_refl same_deployer_trans
             same_deployer_emit).
  - apply (preserves_addTestERC20Token same_deployer same_deployer_refl
             same_deployer_trans same_deployer_emit).
  - apply (preserves_mintTestERC20Token same_deployer same_deployer_trans
             same_deployer_emit).
  - apply (preserves_addTestNotApprovedERC20Token same_deployer same_deployer_refl
             same_deployer_trans same_deployer_emit).
Qed.

Section Frame.
Context (H : Host) (names : list string).

Lemma touches_only_refl m : touches_only names m m.
Proof. repeat split. exists []. by rewrite app_nil_r. Qed.

Lemma touches_only_trans m1 m2 m3 :
  touches_only names m1 m2 -> touches_only names m2 m3 -> touches_only names m1 m3.
Proof.
  intros (W12 & B12 & A12 & n12 & T12) (W23 & B23 & A23 & n23 & T23).
  split; [congruence|]. split; [congruence|]. split.
  - intros n Hn. rewrite A23, A12; done.
  - exists (n12 ++ n23). by rewrite T23, T12, app_assoc.
Qed.

Lemma touches_only_emit m e :
  touches_only names m {| this := this m; trace := trace m ++ [e] |}.
Proof. repeat split. by exists [e]. Qed.

Lemma touches_only_set_address name v :
  name ∈ names -> preserves (touches_only names) (set_address name v).
Proof.
  intros Hin m. cbn. repeat split.
  - intros n Hn. apply lookup_insert_ne. by intros ->.
  - exists []. by rewrite app_nil_r.
Qed.

Lemma touches_only_set_deployTransactionHash name v :
  preserves (touches_only names) (set_deployTransactionHash name v).
Proof. intros m. cbn. repeat split. exists []. by rewrite app_nil_r. Qed.

Lemma touches_only_proxy_as target proxy :
  preserves (touches_only names) (proxy_as target proxy).
Proof.
  intros m. unfold proxy_as, bind, get_this.
  destruct (bytecodes (this m) !! target); apply touches_only_refl.
Qed.

Ltac frame_steps :=
  repeat first
    [ apply (preserves_get_this _ touches_only_refl)
    | apply (preserves_lift _ touches_only_refl)
    | apply (preserves_ret _ touches_only_refl)
    | apply (preserves_deployContract _ touches_only_refl touches_only_trans touches_only_emit)
    | apply (preserves_request _ touches_only_emit)
    | apply touches_only_set_deployTransactionHash
    | apply touches_only_proxy_as
    | apply touches_only_set_address
    | apply (preserves_bind _ touches_only_trans); [|intros ?] ].

Lemma touches_only_deployGovernance :
  "GovernanceTarget" ∈ names -> "Governance" ∈ names ->
  preserves (touches_only names) (deployGovernance H).
Proof. intros Ht Hp. unfold deployGovernance. frame_steps; assumption. Qed.

Lemma touches_only_deployVerifier :
  "VerifierTarget" ∈ names -> "Verifier" ∈ names ->
  preserves (touches_only names) (deployVerifier H).
Proof. intros Ht Hp. unfold deployVerifier. frame_steps; assumption. Qed.

Lemma touches_only_deployFranklin :
  "FranklinTarget" ∈ names -> "Franklin" ∈ names ->
  preserves (touches_only names) (deployFranklin H).
Proof. intros Ht Hp. unfold deployFranklin. frame_steps; assumption. Qed.

Lemma touches_only_deployUpgradeGatekeeper :
  "UpgradeGatekeeper" ∈ names ->
  preserves (touches_only names) (deployUpgradeGatekeeper H).
Proof.
  intros Hg.
  unfold deployUpgradeGatekeeper, transferMastership_of, addUpgradeable_of, invoke, wait.
  frame_steps; assumption.
Qed.

End Frame.

(** X8: whatever the host replies and however the run ends, a deploy method
    changes no address entry other than the ones it is named for (its
    target and its proxy; the gatekeeper's own for
    [deployUpgradeGatekeeper]), leaves wallet and artifacts as they are, and
    only appends to the interaction. *)
Theorem deploy_methods_touch_only_their_entries (H : Host) (m : machine) :
  touches_only ["GovernanceTarget"; "Governance"] m (deployGovernance H m).2 /\
  touches_only ["VerifierTarget"; "Verifier"] m (deployVerifier H m).2 /\
  touches_only ["FranklinTarget"; "Franklin"] m (deployFranklin H m).2 /\
  touches_only ["UpgradeGatekeeper"] m (deployUpgradeGatekeeper H m).2.
Proof.
  split; [|split; [|split]].
  - apply touches_only_deployGovernance; set_solver.
  - apply touches_only_deployVerifier; set_solver.
  - apply touches_only_deployFranklin; set_solver.
  - apply touches_only_deployUpgradeGatekeeper; set_solver.
Qed.

(** ** Deploying, then looking up *)

Lemma proxy_as_inv target proxy m c m' :
  proxy_as target proxy m = (Returned c, m') ->
  exists code,
    bytecodes (this m) !! target = Some code /\
    c = {| address := address proxy; contract_interface := interface code;
           deployTransaction_hash := VUndefined |} /\
    m' = m.
Proof.
  unfold proxy_as, bind, get_this.
  destruct (bytecodes (this m) !! target) as [code|]; [|discriminate].
  intros Hr. inversion Hr. by exists code.
Qed.

Ltac run_bind Hr :=
  let a := fresh "a" in let m1 := fresh "m" in let Hs := fresh "Hs" in
  apply bind_Returned in Hr as (a & m1 & Hs & Hr).

Ltac run_table Hargs :=
  lazymatch type of Hargs with
  | _ = constructorArgs_table ?d ?g ?v ?f !! _ =>
      let L := fresh "L" in
      pose proof (constructorArgs_table_lookups d g v f) as L; cbv zeta in L;
      first [ rewrite (proj1 L) in Hargs
            | rewrite (proj1 (proj2 L)) in Hargs
            | rewrite (proj1 (proj2 (proj2 L))) in Hargs
            | rewrite (proj1 (proj2 (proj2 (proj2 L)))) in Hargs
            | rewrite (proj1 (proj2 (proj2 (proj2 (proj2 L))))) in Hargs
            | rewrite (proj1 (proj2 (proj2 (proj2 (proj2 (proj2 L)))))) in Hargs
            | rewrite (proj2 (proj2 (proj2 (proj2 (proj2 (proj2 L)))))) in Hargs ];
      clear L
  end.

(** One step of a run that returned: the hypothesis [Hr] loses its first
    computation, whose facts are added to the context. *)
Ltac run_step Hr :=
  run_bind Hr;
  match goal with
  | Hs : get_this _ = _ |- _ => inversion Hs; subst; clear Hs
  | Hs : lift (constructorArgs _ _ _) _ = _ |- _ =>
      let Hargs := fresh "Hargs" in let Hm := fresh "Hm" in
      let g := fresh "g" in let v := fresh "v" in let f := fresh "f" in
      let Hg := fresh "Hg" in let Hv := fresh "Hv" in let Hf := fresh "Hf" in
      apply lift_Returned in Hs as [Hargs Hm]; subst;
      apply constructorArgs_Returned in Hargs as (g & v & f & Hg & Hv & Hf & Hargs);
      run_table Hargs; subst
  | Hs : deployContract _ _ _ _ _ _ = _ |- _ =>
      let code := fresh "code" in let a := fresh "a" in let h := fresh "h" in
      let Hcode := fresh "Hcode" in let Hdep := fresh "Hdep" in
      let Hc := fresh "Hc" in let Hm := fresh "Hm" in
      apply deployContract_Returned in Hs as (code & a & h & Hcode & Hdep & Hc & Hm); subst
  | Hs : set_address _ _ _ = _ |- _ => inversion Hs; subst; clear Hs
  | Hs : set_deployTransactionHash _ _ _ = _ |- _ => inversion Hs; subst; clear Hs
  end;
  cbn [this trace address deployTransaction_hash contract_interface] in *.

Section Roundtrip.
Context (H : Host).

(** X9: a deploy method that returns has made what it returns available from
    the Deployer: [getDeployedProxyContract] gives the returned contract,
    the address entry is the address the chain gave the proxy, and for
    Governance and Franklin [getDeployTransactionHash] is the hash of the
    proxy's deployment; [deployVerifier] records no hash at all. *)
Theorem deploy_then_lookup (m : machine) (c : Contract) (m' : machine) :
  (deployGovernance H m = (Returned c, m') ->
   exists a h,
     deployed H (trace m') = inr (a, h) /\
     getDeployedProxyContract (this m') "Governance" = inr c /\
     address c = VString a /\
     addr (this m') "Governance" = VString a /\
     getDeployTransactionHash (this m') "Governance" = VString h) /\
  (deployVerifier H m = (Returned c, m') ->
   exists a h,
     deployed H (trace m') = inr (a, h) /\
     getDeployedProxyContract (this m') "Verifier" = inr c /\
     address c = VString a /\
     addr (this m') "Verifier" = VString a /\
     deployTransactionHash (this m') = deployTransactionHash (this m)) /\
  (deployFranklin H m = (Returned c, m') ->
   exists a h,
     deployed H (trace m') = inr (a, h) /\
     getDeployedProxyContract (this m') "Franklin" = inr c /\
     address c = VString a /\
     addr (this m') "Franklin" = VString a /\
     getDeployTransactionHash (this m') "Franklin" = VString h).
Proof.
  split; [|split].
  - unfold deployGovernance. intros Hr. do 9 run_step Hr.
    apply proxy_as_inv in Hr as (tcode & Htcode & -> & ->).
    cbn [this trace bytecodes] in *.
    exists a1, h0. split; [exact Hdep0|].
    unfold getDeployedProxyContract, addr, getDeployTransactionHash.
    cbn [bytecodes addresses deployTransactionHash this address].
    change ("Governance" +:+ "Target") with "GovernanceTarget".
    rewrite Htcode, !lookup_insert_eq. repeat split.
  - unfold deployVerifier. intros Hr. do 8 run_step Hr.
    apply proxy_as_inv in Hr as (tcode & Htcode & -> & ->).
    cbn [this trace bytecodes] in *.
    exists a1, h0. split; [exact Hdep0|].
    unfold getDeployedProxyContract, addr.
    cbn [bytecodes addresses deployTransactionHash this address].
    change ("Verifier" +:+ "Target") with "VerifierTarget".
    rewrite Htcode, !lookup_insert_eq. repeat split.
  - unfold deployFranklin. intros Hr. do 9 run_step Hr.
    apply proxy_as_inv in Hr as (tcode & Htcode & -> & ->).
    cbn [this trace bytecodes] in *.
    exists a1, h0. split; [exact Hdep0|].
    unfold getDeployedProxyContract, addr, getDeployTransactionHash.
    cbn [bytecodes addresses deployTransactionHash this address].
    change ("Franklin" +:+ "Target") with "FranklinTarget".
    rewrite Htcode, !lookup_insert_eq. repeat split.
Qed.

End Roundtrip.

(** ** Runs that throw *)

Lemma bind_Thrown {A B} (c : M A) (k : A -> M B) m e m'' :
  bind c k m = (Thrown e, m'') ->
  c m = (Thrown e, m'') \/
  exists a m', c m = (Returned a, m') /\ k a m' = (Thrown e, m'').
Proof.
  unfold bind. destruct (c m) as [[a|e'|] m']; intros Hk; try discriminate.
  - right. by exists a, m'.
  - left. by inversion Hk.
Qed.

Lemma deployContract_Thrown (H : Host) w code args gas m e m' :
  deployContract H w code args gas m = (Thrown e, m') -> this m' = this m.
Proof.
  unfold deployContract. destruct code as [c|]; [|by intros [= _ <-]].
  unfold bind, request. destruct (deployed H _) as [x|[a h]]; by intros [= _ <-].
Qed.

(** The next computation of a run that threw either threw itself or
    returned, in which case [run_step] applies to what is left. *)
Ltac throw_step Hr :=
  let a := fresh "a" in let m1 := fresh "m" in let Hs := fresh "Hs" in
  apply bind_Thrown in Hr as [Hr|(a & m1 & Hs & Hr)];
  [ | match goal with
      | Hs : get_this _ = _ |- _ => inversion Hs; subst; clear Hs
      | Hs : lift (constructorArgs _ _ _) _ = _ |- _ =>
          let Hargs := fresh "Hargs" in let Hm := fresh "Hm" in
          let g := fresh "g" in let v := fresh "v" in let f := fresh "f" in
          let Hg := fresh "Hg" in let Hv := fresh "Hv" in let Hf := fresh "Hf" in
          apply lift_Returned in Hs as [Hargs Hm]; subst;
          apply constructorArgs_Returned in Hargs as (g & v & f & Hg & Hv & Hf & Hargs);
          run_table Hargs; subst
      | Hs : deployContract _ _ _ _ _ _ = _ |- _ =>
          let code := fresh "code" in let a := fresh "a" in let h := fresh "h" in
          let Hcode := fresh "Hcode" in let Hdep := fresh "Hdep" in
          let Hc := fresh "Hc" in let Hm := fresh "Hm" in
          apply deployContract_Returned in Hs as (code & a & h & Hcode & Hdep & Hc & Hm); subst
      | Hs : set_address _ _ _ = _ |- _ => inversion Hs; subst; clear Hs
      | Hs : set_deployTransactionHash _ _ _ = _ |- _ => inversion Hs; subst; clear Hs
      end;
      cbn [this trace address deployTransaction_hash contract_interface] in * ].

Ltac thrown_early Hr :=
  first
    [ discriminate Hr
    | left; unfold lift in Hr;
      match type of Hr with
      | context [constructorArgs ?h ?d ?n] => destruct (constructorArgs h d n)
      end; by inversion Hr
    | left; by apply deployContract_Thrown in Hr ].

Section Thrown.
Context (H : Host).

(** X10: a deploy method that throws has written no proxy address and no
    transaction hash.  Either the Deployer is as it was, or the target was
    deployed and only its address has been recorded: the proxy entry then
    still holds the old proxy while the target entry holds the new
    target. *)
Theorem deploy_methods_thrown (m : machine) (e : exn) (m' : machine) :
  (deployGovernance H m = (Thrown e, m') ->
   this m' = this m \/
   exists code a h,
     deployed H (trace m ++ [DeployContract (wallet (this m)) code (Some []) (Some 3000000)])
       = inr (a, h) /\
     this m' = with_address (this m) "GovernanceTarget" (VString a)) /\
  (deployVerifier H m = (Thrown e, m') ->
   this m' = this m \/
   exists code a h,
     deployed H (trace m ++ [DeployContract (wallet (this m)) code (Some []) (Some 3000000)])
       = inr (a, h) /\
     this m' = with_address (this m) "VerifierTarget" (VString a)) /\
  (deployFranklin H m = (Thrown e, m') ->
   this m' = this m \/
   exists code a h,
     deployed H (trace m ++ [DeployContract (wallet (this m)) code (Some []) (Some 6500000)])
       = inr (a, h) /\
     this m' = with_address (this m) "FranklinTarget" (VString a)).
Proof.
  split; [|split].
  - unfold deployGovernance. intros Hr.
    throw_step Hr; [thrown_early Hr|].
    throw_step Hr; [thrown_early Hr|].
    throw_step Hr; [thrown_early Hr|].
    throw_step Hr; [thrown_early Hr|].
    right. exists code, a0, h. split; [exact Hdep|].
    throw_step Hr; [thrown_early Hr|].
    throw_step Hr.
    { unfold lift in Hr. destruct (constructorArgs _ _ _); by inversion Hr. }
    throw_step Hr; [by apply deployContract_Thrown in Hr|].
    throw_step Hr; [discriminate Hr|].
    throw_step Hr; [discriminate Hr|].
    exfalso. unfold proxy_as, bind, get_this in Hr. cbn [this bytecodes] in Hr.
    rewrite Hcode in Hr. discriminate Hr.
  - unfold deployVerifier. intros Hr.
    throw_step Hr; [thrown_early Hr|].
    throw_step Hr; [thrown_early Hr|].
    throw_step Hr; [thrown_early Hr|].
    throw_step Hr; [thrown_early Hr|].
    right. exists code, a0, h. split; [exact Hdep|].
    throw_step Hr; [thrown_early Hr|].
    throw_step Hr.
    { unfold lift in Hr. destruct (constructorArgs _ _ _); by inversion Hr. }
    throw_step Hr; [by apply deployContract_Thrown in Hr|].
    throw_step Hr; [discriminate Hr|].
    exfalso. unfold proxy_as, bind, get_this in Hr. cbn [this bytecodes] in Hr.
    rewrite Hcode in Hr. discriminate Hr.
  - unfold deployFranklin. intros Hr.
    throw_step Hr; [thrown_early Hr|].
    throw_step Hr; [thrown_early Hr|].
    throw_step Hr; [thrown_early Hr|].
    throw_step Hr; [thrown_early Hr|].
    right. exists code, a0, h. split; [exact Hdep|].
    throw_step Hr; [thrown_early Hr|].
    throw_step Hr.
    { unfold lift in Hr. destruct (constructorArgs _ _ _); by inversion Hr. }
    throw_step Hr; [by apply deployContract_Thrown in Hr|].
    throw_step Hr; [discriminate Hr|].
    throw_step Hr; [discriminate Hr|].
    exfalso. unfold proxy_as, bind, get_this in Hr. cbn [this bytecodes] in Hr.
    rewrite Hcode in Hr. discriminate Hr.
Qed.

End Thrown.

(** ** The whole deployment *)

Section Pipeline.
Context (H : Host).

Lemma initializationArgs_Franklin (d : Deployer) :
  initializationArgs H d "Franklin"
  = Some (["address"; "address"; "address"; "bytes32"],
          [addr d "Governance"; addr d "Verifier";
           getenv H "OPERATOR_FRANKLIN_ADDRESS";
           js_or (getenv H "GENESIS_ROOT") (VString HashZero)]).
Proof. reflexivity. Qed.

Lemma deployUpgradeGatekeeper_Returned m contract m' :
  deployUpgradeGatekeeper H m = (Returned contract, m') ->
  exists code gatekeeper tx1 tx2 tx3 tx4 tx5 tx6,
    address contract = VString gatekeeper /\
    addresses (this m') = <["UpgradeGatekeeper" := VString gatekeeper]> (addresses (this m)) /\
    trace m' = trace m ++
      [ DeployContract (wallet (this m)) code (Some [addr (this m) "Franklin"]) (Some 3000000);
        Invoke (addr (this m) "Governance") "transferMastership" [VString gatekeeper]; Wait tx1;
        Invoke (addr (this m) "Verifier") "transferMastership" [VString gatekeeper]; Wait tx2;
        Invoke (addr (this m) "Franklin") "transferMastership" [VString gatekeeper]; Wait tx3;
        Invoke (VString gatekeeper) "addUpgradeable" [addr (this m) "Governance"]; Wait tx4;
        Invoke (VString gatekeeper) "addUpgradeable" [addr (this m) "Verifier"]; Wait tx5;
        Invoke (VString gatekeeper) "addUpgradeable" [addr (this m) "Franklin"]; Wait tx6 ].
Proof.
  unfold deployUpgradeGatekeeper. intros Hr. do 4 run_step Hr.
  repeat (run_bind Hr;
          match goal with
          | Hs : transferMastership_of _ _ _ _ = (Returned ?u, _) |- _ =>
              destruct u; apply transferMastership_of_Returned in Hs as [? ->]
          | Hs : addUpgradeable_of _ _ _ _ = (Returned ?u, _) |- _ =>
              destruct u; apply addUpgradeable_of_Returned in Hs as [? ->]
          end).
  inversion Hr; subst; clear Hr.
  cbn [this trace address addresses] in *.
  change ({| wallet := wallet (this m0); bytecodes := bytecodes (this m0);
             addresses := <["UpgradeGatekeeper":=VString a0]> (addresses (this m0));
             deployTransactionHash := deployTransactionHash (this m0) |})
    with (with_address (this m0) "UpgradeGatekeeper" (VString a0)).
  rewrite !(addr_with_address_ne (this m0) "UpgradeGatekeeper") by discriminate.
  exists code, a0. do 6 eexists.
  repeat split. rewrite <- !app_assoc. reflexivity.
Qed.

(** X11: the four deploy methods run one after the other, each returning: the
    Franklin proxy is initialized with the addresses of the Governance and
    Verifier proxies deployed just before, the gatekeeper is constructed
    with the Franklin proxy's address, mastership of exactly these three
    proxies goes to the gatekeeper and exactly these three are registered
    with it, and at the end the Deployer holds the four addresses. *)
Theorem full_deployment (m0 m1 m2 m3 m4 : machine) (governance verifier franklin gatekeeper : Contract) :
  deployGovernance H m0 = (Returned governance, m1) ->
  deployVerifier H m1 = (Returned verifier, m2) ->
  deployFranklin H m2 = (Returned franklin, m3) ->
  deployUpgradeGatekeeper H m3 = (Returned gatekeeper, m4) ->
  (exists proxyCode target initArgs,
     rawEncode H ["address"; "address"; "address"; "bytes32"]
       [address governance; address verifier;
        getenv H "OPERATOR_FRANKLIN_ADDRESS";
        js_or (getenv H "GENESIS_ROOT") (VString HashZero)] = inr initArgs /\
     last (trace m3)
     = Some (DeployContract (wallet (this m0)) proxyCode
               (Some [VString target; VBuffer initArgs]) (Some 3000000))) /\
  (exists code tx1 tx2 tx3 tx4 tx5 tx6,
     trace m4 = trace m3 ++
       [ DeployContract (wallet (this m0)) code (Some [address franklin]) (Some 3000000);
         Invoke (address governance) "transferMastership" [address gatekeeper]; Wait tx1;
         Invoke (address verifier) "transferMastership" [address gatekeeper]; Wait tx2;
         Invoke (address franklin) "transferMastership" [address gatekeeper]; Wait tx3;
         Invoke (address gatekeeper) "addUpgradeable" [address governance]; Wait tx4;
         Invoke (address gatekeeper) "addUpgradeable" [address verifier]; Wait tx5;
         Invoke (address gatekeeper) "addUpgradeable" [address franklin]; Wait tx6 ]) /\
  addr (this m4) "Governance" = address governance /\
  addr (this m4) "Verifier" = address verifier /\
  addr (this m4) "Franklin" = address franklin /\
  addr (this m4) "UpgradeGatekeeper" = address gatekeeper.
Proof.
  intros Hg Hv Hf Hk.
  pose proof (touches_only_deployGovernance H ["GovernanceTarget"; "Governance"]
                ltac:(set_solver) ltac:(set_solver) m0) as (Wg & _ & _ & _).
  pose proof (touches_only_deployVerifier H ["VerifierTarget"; "Verifier"]
                ltac:(set_solver) ltac:(set_solver) m1) as (Wv & _ & Av & _).
  pose proof (touches_only_deployFranklin H ["FranklinTarget"; "Franklin"]
                ltac:(set_solver) ltac:(set_solver) m2) as (Wf & _ & Af & _).
  rewrite Hg in Wg. rewrite Hv in Wv, Av. rewrite Hf in Wf, Af. cbn [snd] in *.
  apply deployGovernance_spec in Hg
    as (? & ? & ? & ? & ga & ? & ? & _ & _ & _ & _ & _ & _ & _ & Hga & Hgc).
  apply deployVerifier_spec in Hv
    as (? & ? & ? & ? & va & ? & ? & _ & _ & _ & _ & _ & _ & _ & Hva & Hvc).
  apply deployFranklin_spec in Hf
    as (? & fcode & fta & ? & fa & ? & finit & _ & _ & _ & Hinit & _ & Htr & _ & Hfa & Hfc).
  apply deployUpgradeGatekeeper_Returned in Hk
    as (kcode & ka & tx1 & tx2 & tx3 & tx4 & tx5 & tx6 & Hkc & Hka & Hktr).
  assert (addr (this m2) "Governance" = VString ga) as Hg2.
  { unfold addr. rewrite Av by set_solver. by rewrite Hga. }
  assert (addr (this m2) "Verifier" = VString va) as Hv2.
  { unfold addr. by rewrite Hva. }
  assert (addr (this m3) "Governance" = VString ga) as Hg3.
  { unfold addr in *. rewrite Af by set_solver. exact Hg2. }
  assert (addr (this m3) "Verifier" = VString va) as Hv3.
  { unfold addr in *. rewrite Af by set_solver. exact Hv2. }
  assert (addr (this m3) "Franklin" = VString fa) as Hf3.
  { unfold addr. by rewrite Hfa. }
  assert (wallet (this m3) = wallet (this m0)) as Hw3 by congruence.
  assert (wallet (this m2) = wallet (this m0)) as Hw2 by congruence.
  rewrite Hgc, Hvc, Hfc, Hkc. split; [|split].
  - exists fcode, fta, finit. split.
    + unfold encodedInitializationArgs in Hinit.
      rewrite initializationArgs_Franklin in Hinit.
      change ("Franklin" +:+ "Target") with "FranklinTarget" in Hinit.
      rewrite !(addr_with_address_ne (this m2) "FranklinTarget") in Hinit by discriminate.
      by rewrite Hg2, Hv2 in Hinit.
    + rewrite Htr, Hw2.
      change (trace m2 ++ [?e1; ?e2]) with (trace m2 ++ [e1] ++ [e2]).
      by rewrite !app_assoc, last_snoc.
  - exists kcode, tx1, tx2, tx3, tx4, tx5, tx6.
    rewrite Hktr, Hg3, Hv3, Hf3, Hw3. reflexivity.
  - unfold addr in *. rewrite Hka.
    rewrite !lookup_insert_ne by discriminate.
    rewrite lookup_insert_eq. repeat split; assumption.
Qed.

End Pipeline.

(** ** Activations of the publication method *)

Section Activations.
Context (H : Host).

Lemma poll_counts (p : event -> bool) guid n :
  (forall url, p (AxiosGet url) = false) -> p (Sleep 5000) = false ->
  forall status m, count p (trace (poll H guid n status m).2) = count p (trace m).
Proof.
  intros Hget Hsleep. induction n as [|n IH]; intros status m; [reflexivity|].
  rewrite poll_S.
  destruct (got H _) as [e|st]; cbn [snd trace].
  - by rewrite count_snoc, Hget, Nat.add_0_r.
  - destruct (includes _ _).
    + rewrite IH. cbn [trace].
      change (trace m ++ [?a; ?b]) with (trace m ++ [a] ++ [b]).
      by rewrite app_assoc, !count_snoc, Hget, Hsleep, !Nat.add_0_r.
    + cbn [snd trace]. by rewrite count_snoc, Hget, Nat.add_0_r.
Qed.

(** X14: in every run, whatever the host and the fuel, with [g] the source
    gatherings, [p] the submissions and [s] the 15-second delays the run
    adds: [s <= p <= g <= s + 1].  Each submission has its own gathering of
    the sources before it, two submissions are always separated by a
    15-second delay, and a run that came to an end gathered exactly once
    more than it slept. *)
Theorem publish_counts (fuel : nat) : forall (contractname : string) (m : machine),
  let run := publishSourceCodeToEtherscan H fuel contractname m in
  exists g p s : nat,
    count is_gather (trace run.2) = (count is_gather (trace m) + g)%nat /\
    count is_post (trace run.2) = (count is_post (trace m) + p)%nat /\
    count (is_sleep 15000) (trace run.2) = (count (is_sleep 15000) (trace m) + s)%nat /\
    (s <= p)%nat /\ (p <= g)%nat /\ (g <= s + 1)%nat /\
    (run.1 <> OutOfFuel -> g = S s).
Proof.
  induction fuel as [|fuel IH]; intros contractname m.
  { exists O, O, O. cbn -[count Nat.add]. repeat split; try lia. congruence. }
  set (P := fun run : outcome unit * machine =>
    exists g p s : nat,
      count is_gather (trace run.2) = (count is_gather (trace m) + g)%nat /\
      count is_post (trace run.2) = (count is_post (trace m) + p)%nat /\
      count (is_sleep 15000) (trace run.2) = (count (is_sleep 15000) (trace m) + s)%nat /\
      (s <= p)%nat /\ (p <= g)%nat /\ (g <= s + 1)%nat /\
      (run.1 <> OutOfFuel -> g = S s)).
  change (P (publishSourceCodeToEtherscan H (S fuel) contractname m)).
  cbn [publishSourceCodeToEtherscan].
  unfold bind at 1. unfold getSolidityInput, request.
  destruct (gathered H _) as [e|src].
  { exists 1%nat, O, O. cbn [fst snd trace]. rewrite !count_snoc.
    cbn -[count Nat.add]. repeat split; lia. }
  unfold bind at 1. unfold get_this. cbn [this trace].
  unfold bind at 1. destruct (encodedConstructorArgs H (this m) contractname) as [e|args];
    cbn [lift throw ret].
  { exists 1%nat, O, O. cbn [fst snd trace]. rewrite !count_snoc.
    cbn -[count Nat.add]. repeat split; lia. }
  unfold bind at 1. unfold Axios_post, request. cbn [this trace].
  set (before := (trace m ++ [GatherSources (contractPath_of contractname)]) ++ _).
  assert (count is_gather before = (count is_gather (trace m) + 1)%nat /\
          count is_post before = (count is_post (trace m) + 1)%nat /\
          count (is_sleep 15000) before = count (is_sleep 15000) (trace m)) as (Bg & Bp & Bs).
  { subst before. rewrite !count_snoc. cbn -[count Nat.add]. repeat split; lia. }
  destruct (posted H before) as [e|r].
  { exists 1%nat, 1%nat, O. cbn [fst snd trace]. repeat split; lia. }
  destruct (negb (status r =? 1)).
  - destruct (includes (result r) "Unable to locate ContractCode").
    + unfold bind, sleep, emit. cbn [this trace Z.ltb Z.compare].
      destruct (IH contractname {| this := this m; trace := before ++ [Sleep 15000] |})
        as (g & p & s & Hg & Hp & Hs & Hsp & Hpg & Hgs & Hend).
      cbn [trace] in Hg, Hp, Hs. rewrite !count_snoc in Hg, Hp, Hs.
      cbn -[count Nat.add] in Hg, Hp, Hs.
      exists (S g), (S p), (S s). repeat split; try lia.
      intros Hrun. apply Hend in Hrun. lia.
    + unfold console_log, emit.
      exists 1%nat, 1%nat, O. cbn [fst snd trace]. rewrite !count_snoc.
      cbn -[count Nat.add]. repeat split; lia.
  - unfold bind.
    pose proof (poll_counts is_gather (result r) 10 ltac:(done) ltac:(done) None
                  {| this := this m; trace := before |}) as Pg.
    pose proof (poll_counts is_post (result r) 10 ltac:(done) ltac:(done) None
                  {| this := this m; trace := before |}) as Pp.
    pose proof (poll_counts (is_sleep 15000) (result r) 10 ltac:(done) ltac:(done) None
                  {| this := this m; trace := before |}) as Ps.
    destruct (poll H (result r) 10 None _) as [[st|e|] m1]; cbn [fst snd trace] in *.
    + unfold console_log, emit.
      exists 1%nat, 1%nat, O. cbn [fst snd trace]. rewrite !count_snoc.
      cbn -[count Nat.add]. repeat split; lia.
    + exists 1%nat, 1%nat, O. cbn [fst snd trace]. repeat split; lia.
    + exists 1%nat, 1%nat, O. cbn [fst snd trace]. repeat split; try lia.
Qed.

End Activations.

(** ** Exceptions and addresses of the explorer *)

Section Explorer.
Context (H : Host).

(** X15: an exception from gathering the sources, from encoding the constructor
    arguments or from the HTTP submission ends the method with that
    exception: nothing is logged, nothing is retried, and in the first two
    cases nothing is sent to the explorer. *)
Theorem publish_propagates_exceptions (fuel : nat) (contractname : string) (m : machine) (e : exn) :
  let gather := GatherSources (contractPath_of contractname) in
  (gathered H (trace m ++ [gather]) = inl e ->
   publishSourceCodeToEtherscan H (S fuel) contractname m
   = (Thrown e, {| this := this m; trace := trace m ++ [gather] |})) /\
  (forall sourceCode,
     gathered H (trace m ++ [gather]) = inr sourceCode ->
     encodedConstructorArgs H (this m) contractname = inl e ->
     publishSourceCodeToEtherscan H (S fuel) contractname m
     = (Thrown e, {| this := this m; trace := trace m ++ [gather] |})) /\
  (forall sourceCode constructorArguments,
     gathered H (trace m ++ [gather]) = inr sourceCode ->
     encodedConstructorArgs H (this m) contractname = inr constructorArguments ->
     posted H (submitted_trace H m contractname sourceCode constructorArguments) = inl e ->
     publishSourceCodeToEtherscan H (S fuel) contractname m
     = (Thrown e,
        {| this := this m;
           trace := submitted_trace H m contractname sourceCode constructorArguments |})).
Proof.
  intros gather. subst gather. repeat split.
  - intros Hsrc. cbn [publishSourceCodeToEtherscan].
    unfold bind at 1. unfold getSolidityInput, request. by rewrite Hsrc.
  - intros sourceCode Hsrc Hargs. cbn [publishSourceCodeToEtherscan].
    unfold bind at 1. unfold getSolidityInput, request. rewrite Hsrc.
    unfold bind at 1. unfold get_this. cbn [this trace].
    unfold bind at 1. by rewrite Hargs.
  - intros sourceCode constructorArguments Hsrc Hargs Hpost.
    unfold submitted_trace in *. cbn [publishSourceCodeToEtherscan].
    unfold bind at 1. unfold getSolidityInput, request. rewrite Hsrc.
    unfold bind at 1. unfold get_this. cbn [this trace].
    unfold bind at 1. rewrite Hargs. cbn [lift ret].
    unfold bind at 1. unfold Axios_post, request. cbn [this trace].
    rewrite <- app_assoc. cbn [app]. by rewrite Hpost.
Qed.

(** X16: with the sources gathered, a contract name for which the Deployer
    has no artifact ends the method with an exception and without a
    submission: the exception of [constructorArgs] when that throws, and
    otherwise the TypeError of reading [bytecodes[name].abi]. *)
Theorem publish_unknown_contract (fuel : nat) (contractname : string) (m : machine)
    (sourceCode : string) :
  gathered H (trace m ++ [GatherSources (contractPath_of contractname)]) = inr sourceCode ->
  bytecodes (this m) !! contractname = None ->
  publishSourceCodeToEtherscan H (S fuel) contractname m
  = (Thrown match constructorArgs H (this m) contractname with
            | inl e => e
            | inr _ => "TypeError"
            end,
     {| this := this m;
        trace := trace m ++ [GatherSources (contractPath_of contractname)] |}).
Proof.
  intros Hsrc Hnone. cbn [publishSourceCodeToEtherscan].
  unfold bind at 1. unfold getSolidityInput, request. rewrite Hsrc.
  unfold bind at 1. unfold get_this. cbn [this trace].
  unfold bind at 1. unfold encodedConstructorArgs.
  destruct (constructorArgs H (this m) contractname) as [e|args]; [reflexivity|].
  cbn [and_then]. by rewrite Hnone.
Qed.


Lemma poll_urls guid n : forall status m url,
  In (AxiosGet url) (trace (poll H guid n status m).2) ->
  In (AxiosGet url) (trace m) \/ url = checkverifystatus guid.
Proof.
  induction n as [|n IH]; intros status m url; [by left|].
  rewrite poll_S.
  destruct (got H _) as [e|st]; cbn [snd trace].
  - intros [Hin|[= <-]]%in_snoc; [by left|by right].
  - destruct (includes _ _); cbn [snd trace].
    + intros [Hin|Heq]%IH; [|by right]. cbn [trace] in Hin.
      apply in_app_or in Hin as [Hin|Hin]; [by left|].
      destruct Hin as [Heq|[Heq|[]]]; [inversion Heq; by right|discriminate Heq].
    + intros [Hin|[= <-]]%in_snoc; [by left|by right].
Qed.

(** X18: the status requests of the success branch go to the mainnet explorer
    over http, whatever ETH_NETWORK says: every GET a run adds is the
    checkverifystatus request of [http://api.etherscan.io/api]. *)
Theorem status_requests_go_to_mainnet (fuel : nat) :
  forall (contractname : string) (m : machine) (url : string),
  In (AxiosGet url) (trace (publishSourceCodeToEtherscan H fuel contractname m).2) ->
  In (AxiosGet url) (trace m) \/
  exists guid,
    url = "http://api.etherscan.io/api?module=contract&&action=checkverifystatus&&guid="
          +:+ guid.
Proof.
  induction fuel as [|fuel IH]; intros contractname m url; [by left|].
  cbn [publishSourceCodeToEtherscan].
  unfold bind at 1. unfold getSolidityInput, request.
  destruct (gathered H _) as [e|sourceCode]; cbn [snd trace].
  { intros [Hin|[=]]%in_snoc. by left. }
  unfold bind at 1. unfold get_this. cbn [this trace].
  unfold bind at 1.
  destruct (encodedConstructorArgs H (this m) contractname) as [e|args]; cbn [lift throw ret].
  { cbn [snd trace]. intros [Hin|[=]]%in_snoc. by left. }
  unfold bind at 1. unfold Axios_post, request. cbn [this trace].
  set (before := (trace m ++ [GatherSources (contractPath_of contractname)]) ++ _).
  assert (In (AxiosGet url) before -> In (AxiosGet url) (trace m)) as Hbefore.
  { subst before. intros [[Hin|[=]]%in_snoc|[=]]%in_snoc. exact Hin. }
  destruct (posted H before) as [e|r]; [intros Hin; left; by apply Hbefore|].
  destruct (negb (status r =? 1)).
  - destruct (includes (result r) "Unable to locate ContractCode").
    + unfold bind, sleep, emit. cbn [this trace Z.ltb Z.compare].
      intros [Hin|Hurl]%IH; [|by right]. cbn [trace] in Hin.
      apply in_snoc in Hin as [Hin|[=]]. left. by apply Hbefore.
    + unfold console_log, emit. cbn [snd this trace].
      intros [Hin|[=]]%in_snoc. left. by apply Hbefore.
  - unfold bind.
    pose proof (poll_urls (result r) 10 None {| this := this m; trace := before |} url) as Hp.
    destruct (poll H (result r) 10 None _) as [[st| |] m1]; cbn [snd trace] in *.
    + unfold console_log, emit. cbn [snd trace].
      intros [Hin|[=]]%in_snoc. apply Hp in Hin as [Hin | ->].
      * left. by apply Hbefore.
      * right. by exists (result r).
    + intros Hin. apply Hp in Hin as [Hin | ->].
      * left. by apply Hbefore.
      * right. by exists (result r).
    + intros Hin. apply Hp in Hin as [Hin | ->].
      * left. by apply Hbefore.
      * right. by exists (result r).
Qed.

End Explorer.

(** ** The runs of the token helper *)

(** X19: [addTestERC20Token] by the host's replies to its four requests
    (deploy, mint, addToken, wait for addToken), each made in the
    interaction that ends with it.  The first request that is refused ends
    the function: no further request is made, the refusal is logged after
    "Add token error:" and undefined is returned.  When all four are
    accepted the function returns the token contract at the address the
    deployment gave, having logged nothing. *)
Theorem addTestERC20Token_runs (H : Host) (w : Wallet) (governance : Contract) (m : machine)
    (token hash mintTx tx : string) (e : exn) :
  let after := after_requests H w governance token tx in
  let failed k :=
    (Returned (@None Contract), logged_error (after k m) ("Add token error:" +:+ e)) in
  let run := addTestERC20Token H w governance m in
  (deployed H (trace (after 1%nat m)) = inl e -> run = failed 1%nat) /\
  (deployed H (trace (after 1%nat m)) = inr (token, hash) ->
   (submitted H (trace (after 2%nat m)) = inl e -> run = failed 2%nat) /\
   (submitted H (trace (after 2%nat m)) = inr mintTx ->
    (submitted H (trace (after 3%nat m)) = inl e -> run = failed 3%nat) /\
    (submitted H (trace (after 3%nat m)) = inr tx ->
     (mined H (trace (after 4%nat m)) = Some e -> run = failed 4%nat) /\
     (mined H (trace (after 4%nat m)) = None ->
      run = (Returned (Some {| address := VString token;
                               contract_interface := interface (ERC20MintableContract H);
                               deployTransaction_hash := VString hash |}),
             after 4%nat m))))).
Proof.
  intros after failed run. subst after failed run.
  unfold after_requests, logged_error. cbn [take addToken_requests this trace].
  unfold addTestERC20Token, try_catch, addTestERC20Token_try, deployContract,
    invoke, wait, bind, request, console_error, emit, ret, parseEther.
  cbn [this trace address].
  split; [by intros ->|]. intros ->. cbn [this trace address].
  rewrite <- ?app_assoc. cbn [app].
  split; [intros ->; cbn [this trace]; by rewrite <- ?app_assoc|].
  intros ->. cbn [this trace address]. rewrite <- ?app_assoc. cbn [app].
  split; [intros ->; cbn [this trace]; by rewrite <- ?app_assoc|].
  intros ->. cbn [this trace address]. rewrite <- ?app_assoc. cbn [app].
  split; intros ->; cbn [this trace]; by rewrite <- ?app_assoc.
Qed.

(** ** Instances of the further properties *)

Lemma includes_spec_witness :
  includes "Fail - Unable to locate ContractCode at 0x01" "Unable to locate ContractCode"
  = true.
Proof.
  apply includes_spec. exists "Fail - ", " at 0x01". reflexivity.
Defined.


Lemma getDeployedProxyContract_other_names_witness :
  getDeployedProxyContract (new_Deployer explorer_never_indexes dev_wallet true)
    "UpgradeGatekeeper" = inl "TypeError" /\
  getDeployedProxyContract (new_Deployer explorer_never_indexes dev_wallet true)
    "GovernanceTarget" = inl "TypeError".
Proof.
  split.
  - apply (getDeployedProxyContract_other_names explorer_never_indexes dev_wallet true
             "UpgradeGatekeeper").
    apply (bool_decide_unpack _). by vm_compute.
  - apply (getDeployedProxyContract_other_names explorer_never_indexes dev_wallet true
             "GovernanceTarget").
    apply (bool_decide_unpack _). by vm_compute.
Defined.

Lemma encodedInitializationArgs_names_witness :
  encodedInitializationArgs explorer_never_indexes (this dev_machine) "GovernanceTarget"
  = inl "TypeError".
Proof.
  apply (encodedInitializationArgs_names explorer_never_indexes (this dev_machine)
           "GovernanceTarget").
  apply (bool_decide_unpack _). by vm_compute.
Defined.

Lemma constructorArgs_fails_for_every_name_witness :
  constructorArgs bare_host (this (machine_of bare_host)) "VerifierTarget"
  = inl "Error: Argument is not a number" /\
  encodedConstructorArgs bare_host (this (machine_of bare_host)) "VerifierTarget"
  = inl "Error: Argument is not a number".
Proof.
  apply (proj2 (constructorArgs_fails_for_every_name bare_host (this (machine_of bare_host))
                  "Franklin" "Error: Argument is not a number")).
  vm_compute. reflexivity.
Defined.

Lemma deploy_methods_need_constructorArgs_witness :
  deployGovernance bare_host (machine_of bare_host)
  = (Thrown "Error: Argument is not a number", machine_of bare_host) /\
  deployVerifier bare_host (machine_of bare_host)
  = (Thrown "Error: Argument is not a number", machine_of bare_host) /\
  deployFranklin bare_host (machine_of bare_host)
  = (Thrown "Error: Argument is not a number", machine_of bare_host) /\
  deployUpgradeGatekeeper bare_host (machine_of bare_host)
  = (Thrown "Error: Argument is not a number", machine_of bare_host).
Proof.
  apply (deploy_methods_need_constructorArgs bare_host (machine_of bare_host) "GovernanceTarget").
  vm_compute. reflexivity.
Defined.

Lemma deploy_then_lookup_witness :
  exists c m',
    deployGovernance explorer_never_indexes dev_machine = (Returned c, m') /\
    getDeployedProxyContract (this m') "Governance" = inr c /\
    getDeployTransactionHash (this m') "Governance" = VString "0xd2".
Proof.
  eexists _, _. split; [vm_compute; reflexivity|].
  lazymatch goal with
  | |- getDeployedProxyContract (this ?m') _ = inr ?c /\ _ =>
      destruct (proj1 (deploy_then_lookup explorer_never_indexes dev_machine c m'))
        as (a & h & Hdep & Hc & _ & _ & Hh); [vm_compute; reflexivity|]
  end.
  split; [exact Hc|]. rewrite Hh. vm_compute in Hdep. by inversion Hdep.
Defined.

Lemma deploy_methods_thrown_witness :
  exists m',
    deployFranklin chain_fails_second_deployment (machine_of chain_fails_second_deployment)
    = (Thrown "Error: out of gas", m') /\
    addr (this m') "FranklinTarget" = VString "0xc1" /\
    addr (this m') "Franklin" = VString "0xa6".
Proof.
  eexists. split; [vm_compute; reflexivity|].
  lazymatch goal with
  | |- addr (this ?m') _ = _ /\ _ =>
      destruct (proj2 (proj2 (deploy_methods_thrown chain_fails_second_deployment
                                (machine_of chain_fails_second_deployment)
                                "Error: out of gas" m')))
        as [Hsame|(code & a & h & Hdep & Hthis)]; [vm_compute; reflexivity| |]
  end.
  - vm_compute in Hsame. discriminate Hsame.
  - vm_compute. split; reflexivity.
Defined.

Lemma full_deployment_witness :
  exists m4 franklin gatekeeper,
    addr (this m4) "Franklin" = address franklin /\
    addr (this m4) "UpgradeGatekeeper" = address gatekeeper /\
    address gatekeeper = VString "0xc7".
Proof.
  eexists _, _, _.
  edestruct (full_deployment explorer_never_indexes dev_machine)
    as (_ & _ & _ & _ & Hf & Hk); [vm_compute; reflexivity..|].
  split; [exact Hf|]. split; [exact Hk|]. reflexivity.
Defined.

Lemma publish_counts_witness :
  let run := publishSourceCodeToEtherscan (explorer_indexes_after 2) 5 "Governance"
               (machine_of (explorer_indexes_after 2)) in
  count is_gather (trace run.2) = 3%nat /\
  count is_post (trace run.2) = 3%nat /\
  count (is_sleep 15000) (trace run.2) = 2%nat.
Proof.
  intros run.
  destruct (publish_counts (explorer_indexes_after 2) 5 "Governance"
              (machine_of (explorer_indexes_after 2)))
    as (g & p & s & Hg & Hp & Hs & Hsp & Hpg & Hgs & Hend).
  fold run in Hg, Hp, Hs, Hend.
  assert (g = S s) as -> by (apply Hend; vm_compute; discriminate).
  assert (s = 2%nat) as -> by (vm_compute in Hs; lia).
  assert (p = 3%nat) as -> by (vm_compute in Hp; lia).
  rewrite Hg, Hp, Hs. vm_compute. repeat split.
Defined.

Lemma publish_propagates_exceptions_witness :
  publishSourceCodeToEtherscan explorer_never_indexes 1 "Proxy" dev_machine
  = (Thrown "TypeError",
     {| this := this dev_machine; trace := [GatherSources "contracts/Proxy.sol"] |}).
Proof.
  apply (proj1 (proj2 (publish_propagates_exceptions explorer_never_indexes 0 "Proxy"
                         dev_machine "TypeError")) "{}").
  - reflexivity.
  - vm_compute. reflexivity.
Defined.

Lemma publish_unknown_contract_witness :
  publishSourceCodeToEtherscan explorer_never_indexes 1 "ERC20Mintable" dev_machine
  = (Thrown "TypeError",
     {| this := this dev_machine; trace := [GatherSources "contracts/ERC20Mintable.sol"] |}) /\
  publishSourceCodeToEtherscan bare_host 1 "ERC20Mintable" (machine_of bare_host)
  = (Thrown "Error: Argument is not a number",
     {| this := this (machine_of bare_host);
        trace := [GatherSources "contracts/ERC20Mintable.sol"] |}).
Proof.
  split.
  - apply (publish_unknown_contract explorer_never_indexes 0 "ERC20Mintable" dev_machine "{}").
    + reflexivity.
    + vm_compute. reflexivity.
  - apply (publish_unknown_contract bare_host 0 "ERC20Mintable" (machine_of bare_host) "{}").
    + reflexivity.
    + vm_compute. reflexivity.
Defined.


Lemma status_requests_go_to_mainnet_witness :
  exists guid,
    "http://api.etherscan.io/api?module=contract&&action=checkverifystatus&&guid=ezq878u486pzijkvvmerl6a9mzwhv6sefgvqi5tkwceejc7tvn"
    = "http://api.etherscan.io/api?module=contract&&action=checkverifystatus&&guid=" +:+ guid.
Proof.
  destruct (status_requests_go_to_mainnet (explorer_queues 2) 1 "Governance"
              (machine_of (explorer_queues 2))
              "http://api.etherscan.io/api?module=contract&&action=checkverifystatus&&guid=ezq878u486pzijkvvmerl6a9mzwhv6sefgvqi5tkwceejc7tvn")
    as [[]|Hguid].
  - vm_compute. do 2 right. left. reflexivity.
  - exact Hguid.
Defined.

Lemma addTestERC20Token_runs_witness :
  addTestERC20Token chain_refuses_calls dev_wallet dev_governance
    (machine_of chain_refuses_calls)
  = (Returned None,
     logged_error
       (after_requests chain_refuses_calls dev_wallet dev_governance "0xc1" "" 2
          (machine_of chain_refuses_calls))
       "Add token error:Error: nonce too low") /\
  addTestERC20Token explorer_never_indexes dev_wallet dev_governance dev_machine
  = (Returned (Some {| address := VString "0xc1";
                       contract_interface :=
                         interface (ERC20MintableContract explorer_never_indexes);
                       deployTransaction_hash := VString "0xd1" |}),
     after_requests explorer_never_indexes dev_wallet dev_governance "0xc1" "0xe2" 4
       dev_machine).
Proof.
  split.
  - apply (addTestERC20Token_runs chain_refuses_calls dev_wallet dev_governance
             (machine_of chain_refuses_calls) "0xc1" "0xd1" "" ""
             "Error: nonce too low").
    + vm_compute. reflexivity.
    + vm_compute. reflexivity.
  - apply (addTestERC20Token_runs explorer_never_indexes dev_wallet dev_governance
             dev_machine "0xc1" "0xd1" "0xe1" "0xe2" "").
    + vm_compute. reflexivity.
    + vm_compute. reflexivity.
    + vm_compute. reflexivity.
    + vm_compute. reflexivity.
Defined.

(** C10 as stated fails: on a Deployer built from an environment that names
    no contract yet, GovernanceTarget has an artifact whose ABI has no
    constructor entry, and [encodedConstructorArgs] throws the encoder's
    exception for the Franklin initialization arguments instead of
    returning null. *)
Lemma encodedConstructorArgs_null_counterexample :
  bytecodes (new_Deployer bare_host dev_wallet false) !! "GovernanceTarget"
  = Some (stub "Governance" no_constructor) /\
  Forall (fun i => type i <> "constructor") (abi (stub "Governance" no_constructor)) /\
  encodedConstructorArgs bare_host (new_Deployer bare_host dev_wallet false) "GovernanceTarget"
  = inl "Error: Argument is not a number" /\
  encodedConstructorArgs bare_host (new_Deployer bare_host dev_wallet false) "GovernanceTarget"
  <> inr VNull.
Proof.
  split; [reflexivity|]. split; [repeat constructor; discriminate|].
  assert (encodedConstructorArgs bare_host (new_Deployer bare_host dev_wallet false)
            "GovernanceTarget" = inl "Error: Argument is not a number") as Hthrow
    by (vm_compute; reflexivity).
  split; [exact Hthrow|]. rewrite Hthrow. discriminate.
Qed.
